(** * X11 clipboard monitoring: a model of src/platform/x11/x11platformclipboard.cpp

    The class [X11PlatformClipboard] keeps two [ClipboardData] trackers
    (clipboard and primary selection), one shared re-check timer and one
    single-shot debounce timer per tracker.  All of its code runs on one
    thread, in response to calls, to the owner-change signal and to timer
    timeouts, so the model is a transition function on the object's state.

    What leaves the object is recorded in two traces kept in the state: the
    [changed(mode)] signals emitted and the warnings logged.  What enters it
    (the platform read, the title of the owning window, the pointer state)
    is an argument of the operation that asks for it. *)

From stdpp Require Import gmap strings list fin_maps.
From Stdlib Require Import ZArith Lia.
From Stdlib Require String.
From Stdlib.Strings Require Import Byte.

Open Scope Z_scope.

(** ** Qt value types *)

#[global] Instance byte_eq_decision : EqDecision byte := Byte.byte_eq_dec.

Abbreviation QByteArray := (list byte).
Abbreviation QStringList := (list string).
(** [QVariantMap]: the variants stored by this class are all byte arrays. *)
Abbreviation QVariantMap := (gmap string (list byte)).
(** [QMimeData] as read from the platform: format name to payload. *)
Abbreviation QMimeData := (gmap string (list byte)).

Definition isEmpty (b : QByteArray) : bool :=
  match b with [] => true | _ => false end.

(** [QMimeData::data(format)]: the payload, empty when the format is absent. *)
Definition QMimeData_data (d : QMimeData) (format : string) : QByteArray :=
  default [] (d !! format).

Inductive ClipboardMode := Clipboard | Selection.

#[global] Instance ClipboardMode_eq_decision : EqDecision ClipboardMode.
Proof. solve_decision. Defined.

(** [QClipboard::Mode] as the [int] that the owner-change signal carries. *)
Definition QClipboard_Clipboard : Z := 0.
Definition QClipboard_Selection : Z := 1.

(** ** QTimer: the interval and whether the timer is running *)

Module QTimer.

Record t := mk { interval : Z; isActive : bool }.

Definition start (tm : t) : t := mk (interval tm) true.
Definition start_ms (msec : Z) (tm : t) : t := mk msec true.
Definition stop (tm : t) : t := mk (interval tm) false.
(** [setInterval] on a running timer restarts it with the new interval: it
    stays active. *)
Definition setInterval (msec : Z) (tm : t) : t := mk msec (isActive tm).

End QTimer.

(** Modelled from the spec: [initSingleShotTimer] of common/timer.h, which is
    not part of the sources at hand.  It makes the timer single-shot (it
    "fires once"), sets its interval and connects the slot; only the interval
    is state of this model, the single shot is part of [step] below. *)
Definition initSingleShotTimer (milliseconds : Z) (tm : QTimer.t) : QTimer.t :=
  QTimer.setInterval milliseconds tm.

(** ** Constants of the anonymous namespace *)

Definition minCheckAgainIntervalMs : Z := 50.
Definition maxCheckAgainIntervalMs : Z := 500.
Definition maxRetryCount : Z := 3.

(** X11/X.h *)
Definition ShiftMask : Z := Z.shiftl 1 0.
Definition Button1Mask : Z := Z.shiftl 1 8.

(** [isSelectionIncomplete]: [isPlatformX11] is [QX11Info::isPlatformX11()]
    and [xbutton_state] the mask that [XQueryPointer] stores. *)
Definition isSelectionIncomplete (isPlatformX11 : bool) (xbutton_state : Z) : bool :=
  if negb isPlatformX11 then false
  else negb (Z.land xbutton_state (Z.lor Button1Mask ShiftMask) =? 0).

(** Modelled from the spec: [cloneData] of common/common.cpp, which is not
    part of the sources at hand: "recompute pending by filtering the raw read
    to subscribedFormats". *)
Definition cloneData (d : QMimeData) (formats : QStringList) : QVariantMap :=
  filter (λ kv, kv.1 ∈ formats) d.

(** ** The tracker struct *)

Module ClipboardData.

Record t := mk {
  newData : QVariantMap;
  data : QVariantMap;
  owner : QByteArray;
  newOwner : QByteArray;
  timerEmitChange : QTimer.t;
  formats : QStringList;
  newDataTimestamp : QByteArray;
  mode : ClipboardMode;
  enabled : bool;
  retry : Z;
  changed : bool
}.

Definition set_newData v (c : t) : t :=
  mk v (data c) (owner c) (newOwner c) (timerEmitChange c) (formats c)
     (newDataTimestamp c) (mode c) (enabled c) (retry c) (changed c).
Definition set_data v (c : t) : t :=
  mk (newData c) v (owner c) (newOwner c) (timerEmitChange c) (formats c)
     (newDataTimestamp c) (mode c) (enabled c) (retry c) (changed c).
Definition set_owner v (c : t) : t :=
  mk (newData c) (data c) v (newOwner c) (timerEmitChange c) (formats c)
     (newDataTimestamp c) (mode c) (enabled c) (retry c) (changed c).
Definition set_newOwner v (c : t) : t :=
  mk (newData c) (data c) (owner c) v (timerEmitChange c) (formats c)
     (newDataTimestamp c) (mode c) (enabled c) (retry c) (changed c).
Definition set_timerEmitChange v (c : t) : t :=
  mk (newData c) (data c) (owner c) (newOwner c) v (formats c)
     (newDataTimestamp c) (mode c) (enabled c) (retry c) (changed c).
Definition set_formats v (c : t) : t :=
  mk (newData c) (data c) (owner c) (newOwner c) (timerEmitChange c) v
     (newDataTimestamp c) (mode c) (enabled c) (retry c) (changed c).
Definition set_newDataTimestamp v (c : t) : t :=
  mk (newData c) (data c) (owner c) (newOwner c) (timerEmitChange c) (formats c)
     v (mode c) (enabled c) (retry c) (changed c).
Definition set_mode v (c : t) : t :=
  mk (newData c) (data c) (owner c) (newOwner c) (timerEmitChange c) (formats c)
     (newDataTimestamp c) v (enabled c) (retry c) (changed c).
Definition set_enabled v (c : t) : t :=
  mk (newData c) (data c) (owner c) (newOwner c) (timerEmitChange c) (formats c)
     (newDataTimestamp c) (mode c) v (retry c) (changed c).
Definition set_retry v (c : t) : t :=
  mk (newData c) (data c) (owner c) (newOwner c) (timerEmitChange c) (formats c)
     (newDataTimestamp c) (mode c) (enabled c) v (changed c).
Definition set_changed v (c : t) : t :=
  mk (newData c) (data c) (owner c) (newOwner c) (timerEmitChange c) (formats c)
     (newDataTimestamp c) (mode c) (enabled c) (retry c) v.

End ClipboardData.

(** ** The object *)

(** The one unconditional [log] call of the file,
    "Failed to retrieve %1 data (try %2/%3)" at warning level.  The
    [COPYQ_LOG] lines are debug output and are left out: they read the state
    and change nothing. *)
Inductive LogEntry :=
| FailedToRetrieve (mode : ClipboardMode) (try maxTry : Z).

Record X11PlatformClipboard := mkX11 {
  m_clipboardData : ClipboardData.t;
  m_selectionData : ClipboardData.t;
  m_timerCheckAgain : QTimer.t;
  (** the [changed(mode)] signals emitted so far, oldest first *)
  emitted : list ClipboardMode;
  (** the warnings logged so far, oldest first *)
  logged : list LogEntry
}.

Definition set_m_clipboardData v (s : X11PlatformClipboard) :=
  mkX11 v (m_selectionData s) (m_timerCheckAgain s) (emitted s) (logged s).
Definition set_m_selectionData v (s : X11PlatformClipboard) :=
  mkX11 (m_clipboardData s) v (m_timerCheckAgain s) (emitted s) (logged s).
Definition set_m_timerCheckAgain v (s : X11PlatformClipboard) :=
  mkX11 (m_clipboardData s) (m_selectionData s) v (emitted s) (logged s).
Definition emit_changed (m : ClipboardMode) (s : X11PlatformClipboard) :=
  mkX11 (m_clipboardData s) (m_selectionData s) (m_timerCheckAgain s)
        (emitted s ++ [m]) (logged s).
Definition log (e : LogEntry) (s : X11PlatformClipboard) :=
  mkX11 (m_clipboardData s) (m_selectionData s) (m_timerCheckAgain s)
        (emitted s) (logged s ++ [e]).

(** The two [ClipboardData *] that the methods are called with. *)
Inductive ClipboardDataPtr := ptr_clipboardData | ptr_selectionData.

#[global] Instance ClipboardDataPtr_eq_decision : EqDecision ClipboardDataPtr.
Proof. solve_decision. Defined.

Definition deref (p : ClipboardDataPtr) (s : X11PlatformClipboard) : ClipboardData.t :=
  match p with
  | ptr_clipboardData => m_clipboardData s
  | ptr_selectionData => m_selectionData s
  end.

Definition assign (p : ClipboardDataPtr) (c : ClipboardData.t)
    (s : X11PlatformClipboard) : X11PlatformClipboard :=
  match p with
  | ptr_clipboardData => set_m_clipboardData c s
  | ptr_selectionData => set_m_selectionData c s
  end.

(** [mode == ClipboardMode::Clipboard ? m_clipboardData : m_selectionData] *)
Definition dataFor (m : ClipboardMode) : ClipboardDataPtr :=
  match m with Clipboard => ptr_clipboardData | Selection => ptr_selectionData end.

(** The constructor sets the two [mode] fields and nothing assigns them
    afterwards. *)
Definition constructed (s : X11PlatformClipboard) : Prop :=
  ClipboardData.mode (m_clipboardData s) = Clipboard ∧
  ClipboardData.mode (m_selectionData s) = Selection.

(** ** The methods *)

(** The platform read [::clipboardData(mode)]: a null pointer is [None]. *)
Abbreviation PlatformRead := (ClipboardMode → option (gmap string (list byte))).

Definition updateClipboardData (p : ClipboardDataPtr) (platformClipboard : PlatformRead)
    (s : X11PlatformClipboard) : bool * X11PlatformClipboard :=
  let cd := deref p s in
  if negb (ClipboardData.enabled cd) then (false, s)
  else
    match platformClipboard (ClipboardData.mode cd) with
    | None =>
        let s1 :=
          if ClipboardData.retry cd <? maxRetryCount then
            let cd1 := ClipboardData.set_retry (ClipboardData.retry cd + 1) cd in
            set_m_timerCheckAgain
              (QTimer.start_ms (ClipboardData.retry cd1 * maxCheckAgainIntervalMs)
                 (m_timerCheckAgain s))
              (assign p cd1 s)
          else s in
        (false,
         log (FailedToRetrieve (ClipboardData.mode (deref p s1))
                (ClipboardData.retry (deref p s1)) maxRetryCount) s1)
    | Some d =>
        let cd1 := ClipboardData.set_retry 0 cd in
        let newDataTimestamp := QMimeData_data d "TIMESTAMP" in
        let cd2 :=
          if isEmpty newDataTimestamp
             || negb (bool_decide (ClipboardData.newDataTimestamp cd1 = newDataTimestamp))
          then
            ClipboardData.set_newData (cloneData d (ClipboardData.formats cd1))
              (ClipboardData.set_newDataTimestamp newDataTimestamp cd1)
          else cd1 in
        (* [None]: the early [return false] *)
        let cd3 :=
          if negb (ClipboardData.changed cd2) then
            if bool_decide (ClipboardData.data cd2 = ClipboardData.newData cd2)
            then None
            else Some (ClipboardData.set_changed true cd2)
          else Some cd2 in
        match cd3 with
        | None => (false, assign p cd2 s)
        | Some cd4 =>
            (true,
             assign p
               (ClipboardData.set_timerEmitChange
                  (QTimer.start (ClipboardData.timerEmitChange cd4)) cd4) s)
        end
    end.

Definition useNewClipboardData (p : ClipboardDataPtr) (s : X11PlatformClipboard)
    : X11PlatformClipboard :=
  let cd := deref p s in
  let cd := ClipboardData.set_data (ClipboardData.newData cd) cd in
  let cd := ClipboardData.set_owner (ClipboardData.newOwner cd) cd in
  let cd := ClipboardData.set_changed false cd in
  let cd := ClipboardData.set_timerEmitChange
              (QTimer.stop (ClipboardData.timerEmitChange cd)) cd in
  emit_changed (ClipboardData.mode cd) (assign p cd s).

Definition checkAgainLater (clipboardChanged : bool) (interval : Z)
    (s : X11PlatformClipboard) : X11PlatformClipboard :=
  let tm := QTimer.setInterval interval (m_timerCheckAgain s) in
  let tm :=
    if interval <? maxCheckAgainIntervalMs then QTimer.start tm
    else if clipboardChanged then QTimer.start_ms maxCheckAgainIntervalMs tm
    else QTimer.setInterval 0 tm in
  set_m_timerCheckAgain tm s.

(** The three [stop()] calls that open [check]. *)
Definition stopTimers (s : X11PlatformClipboard) : X11PlatformClipboard :=
  let s := set_m_clipboardData
             (ClipboardData.set_timerEmitChange
                (QTimer.stop (ClipboardData.timerEmitChange (m_clipboardData s)))
                (m_clipboardData s)) s in
  let s := set_m_selectionData
             (ClipboardData.set_timerEmitChange
                (QTimer.stop (ClipboardData.timerEmitChange (m_selectionData s)))
                (m_selectionData s)) s in
  set_m_timerCheckAgain (QTimer.stop (m_timerCheckAgain s)) s.

(** The initialiser of [changed] in [check]:
    [updateClipboardData(&m_clipboardData) || updateClipboardData(&m_selectionData)],
    with the short circuit of [||]. *)
Definition check_changed (platformClipboard : PlatformRead) (s : X11PlatformClipboard)
    : bool * X11PlatformClipboard :=
  let '(c, s1) := updateClipboardData ptr_clipboardData platformClipboard s in
  if c then (true, s1)
  else updateClipboardData ptr_selectionData platformClipboard s1.

(** [interval] is an [int] in the source.  On the states within [bounded]
    below, which every event keeps, [interval * 2 + minCheckAgainIntervalMs]
    is at most 3050, and the arithmetic of [Z] is that of [int]; what is
    stated of the intervals of [check] is stated of those states. *)
Definition check (platformClipboard : PlatformRead) (s : X11PlatformClipboard)
    : X11PlatformClipboard :=
  let s := stopTimers s in
  let '(changed, s) := check_changed platformClipboard s in
  if QTimer.isActive (m_timerCheckAgain s) then s
  else
    let interval := QTimer.interval (m_timerCheckAgain s) * 2 + minCheckAgainIntervalMs in
    checkAgainLater changed interval s.

Definition setMonitoringEnabled (m : ClipboardMode) (enable : bool)
    (s : X11PlatformClipboard) : X11PlatformClipboard :=
  let p := dataFor m in
  assign p (ClipboardData.set_enabled enable (deref p s)) s.

(** [currentWindowTitle] is what [clipboardOwner()] returns. *)
Definition onChanged (mode : Z) (currentWindowTitle : QByteArray)
    (s : X11PlatformClipboard) : X11PlatformClipboard :=
  let p := if mode =? QClipboard_Clipboard then ptr_clipboardData else ptr_selectionData in
  if negb (ClipboardData.enabled (deref p s)) then s
  else
    let s := assign p (ClipboardData.set_changed true (deref p s)) s in
    let s :=
      if bool_decide (currentWindowTitle ≠ ClipboardData.newOwner (deref p s))
      then assign p (ClipboardData.set_newOwner currentWindowTitle (deref p s)) s
      else s in
    if (mode =? QClipboard_Selection) && QTimer.isActive (m_timerCheckAgain s) then
      set_m_selectionData
        (ClipboardData.set_timerEmitChange
           (QTimer.stop (ClipboardData.timerEmitChange (m_selectionData s)))
           (m_selectionData s)) s
    else checkAgainLater true 0 s.

(** The slot that [startMonitoring] connects to the clipboard tracker's
    [timerEmitChange]. *)
Definition clipboardEmitChange (s : X11PlatformClipboard) : X11PlatformClipboard :=
  useNewClipboardData ptr_clipboardData s.

(** The slot that [startMonitoring] connects to the selection tracker's
    [timerEmitChange]. *)
Definition selectionEmitChange (isPlatformX11 : bool) (xbutton_state : Z)
    (s : X11PlatformClipboard) : X11PlatformClipboard :=
  if isSelectionIncomplete isPlatformX11 xbutton_state then
    if negb (QTimer.isActive (m_timerCheckAgain s)) then
      set_m_timerCheckAgain
        (QTimer.start_ms minCheckAgainIntervalMs (m_timerCheckAgain s)) s
    else s
  else useNewClipboardData ptr_selectionData s.

(** Modelled from the spec: [DummyClipboard::startMonitoring] of
    platform/dummy/dummyclipboard.cpp, which is not part of the sources at
    hand.  The base class "supplies storage plumbing": it subscribes to the
    owner-change signal and touches none of the fields of this class. *)
Definition DummyClipboard_startMonitoring (formats : QStringList)
    (s : X11PlatformClipboard) : X11PlatformClipboard := s.

Section MimeTypes.

(** common/mimetypes.h is not part of the sources at hand: the names of the
    formats are parameters. *)
Variables (mimeText mimeOwner mimeWindowTitle : string).

(** The body of the loop of [startMonitoring]. *)
Definition startMonitoring_baseline (platformClipboard : PlatformRead)
    (s : X11PlatformClipboard) (p : ClipboardDataPtr) : X11PlatformClipboard :=
  let s := assign p (ClipboardData.set_owner [] (deref p s)) s in
  let s := assign p (ClipboardData.set_newOwner [] (deref p s)) s in
  let s := (updateClipboardData p platformClipboard s).2 in
  useNewClipboardData p s.

Definition startMonitoring (formats : QStringList) (platformClipboard : PlatformRead)
    (s : X11PlatformClipboard) : X11PlatformClipboard :=
  let s := set_m_clipboardData (ClipboardData.set_formats formats (m_clipboardData s)) s in
  let s := set_m_selectionData
             (ClipboardData.set_formats
                (ClipboardData.formats (m_selectionData s) ++ [mimeText])
                (m_selectionData s)) s in
  let s := foldl (startMonitoring_baseline platformClipboard) s
             [ptr_clipboardData; ptr_selectionData] in
  let s := set_m_timerCheckAgain (initSingleShotTimer 0 (m_timerCheckAgain s)) s in
  let s := set_m_clipboardData
             (ClipboardData.set_timerEmitChange
                (initSingleShotTimer 0 (ClipboardData.timerEmitChange (m_clipboardData s)))
                (m_clipboardData s)) s in
  let s := set_m_selectionData
             (ClipboardData.set_timerEmitChange
                (initSingleShotTimer 0 (ClipboardData.timerEmitChange (m_selectionData s)))
                (m_selectionData s)) s in
  DummyClipboard_startMonitoring formats s.

(** [data] is a [const] method working on a copy of the published map: the
    object comes back as it went in. *)
Definition data (m : ClipboardMode) (formats : QStringList) (s : X11PlatformClipboard)
    : QVariantMap * X11PlatformClipboard :=
  let clipboardData := deref (dataFor m) s in
  let d := ClipboardData.data clipboardData in
  let d :=
    if negb (bool_decide (is_Some (d !! mimeOwner)))
    then <[mimeWindowTitle := ClipboardData.owner clipboardData]> d
    else d in
  (d, s).

End MimeTypes.

(** ** The event loop *)

(** What the object reacts to: the three public calls that touch its state,
    the owner-change signal, and the timeouts of its three timers. *)
Inductive Event :=
| CallStartMonitoring (mimeText : string) (formats : QStringList)
    (platformClipboard : PlatformRead)
| CallSetMonitoringEnabled (m : ClipboardMode) (enable : bool)
| OwnerChanged (mode : Z) (currentWindowTitle : QByteArray)
| TimeoutCheckAgain (platformClipboard : PlatformRead)
| TimeoutEmitChange (p : ClipboardDataPtr) (isPlatformX11 : bool) (xbutton_state : Z).

(** A timeout is delivered only by a running timer. *)
Definition deliverable (e : Event) (s : X11PlatformClipboard) : bool :=
  match e with
  | TimeoutCheckAgain _ => QTimer.isActive (m_timerCheckAgain s)
  | TimeoutEmitChange p _ _ => QTimer.isActive (ClipboardData.timerEmitChange (deref p s))
  | _ => true
  end.

(** A single-shot timer stops itself before its slot runs. *)
Definition step (e : Event) (s : X11PlatformClipboard) : X11PlatformClipboard :=
  match e with
  | CallStartMonitoring mimeText formats platformClipboard =>
      startMonitoring mimeText formats platformClipboard s
  | CallSetMonitoringEnabled m enable => setMonitoringEnabled m enable s
  | OwnerChanged mode currentWindowTitle => onChanged mode currentWindowTitle s
  | TimeoutCheckAgain platformClipboard =>
      check platformClipboard
        (set_m_timerCheckAgain (QTimer.stop (m_timerCheckAgain s)) s)
  | TimeoutEmitChange p isPlatformX11 xbutton_state =>
      let s := assign p
                 (ClipboardData.set_timerEmitChange
                    (QTimer.stop (ClipboardData.timerEmitChange (deref p s)))
                    (deref p s)) s in
      match p with
      | ptr_clipboardData => clipboardEmitChange s
      | ptr_selectionData => selectionEmitChange isPlatformX11 xbutton_state s
      end
  end.

Definition run (es : list Event) (s : X11PlatformClipboard) : X11PlatformClipboard :=
  foldl (λ s e, step e s) s es.

(** [n] polls of the tracker [p] in a row, each reading [platformClipboard]. *)
Fixpoint polls (n : nat) (p : ClipboardDataPtr) (platformClipboard : PlatformRead)
    (s : X11PlatformClipboard) : X11PlatformClipboard :=
  match n with
  | O => s
  | S n => polls n p platformClipboard (updateClipboardData p platformClipboard s).2
  end.

(** Two raw reads agree on the formats of a list. *)
Definition agreeOn (formats : QStringList) (d1 d2 : QMimeData) : Prop :=
  ∀ f, f ∈ formats → d1 !! f = d2 !! f.

(** The [QClipboard::Mode] with which the owner-change signal names a tracker. *)
Definition signalMode (p : ClipboardDataPtr) : Z :=
  match p with
  | ptr_clipboardData => QClipboard_Clipboard
  | ptr_selectionData => QClipboard_Selection
  end.

(** The bounds within which the counters of the object stay: no retry counter
    above [maxRetryCount], and an interval of the shared timer that
    [interval * 2 + minCheckAgainIntervalMs] keeps far from the range of
    [int]. *)
Definition bounded (s : X11PlatformClipboard) : Prop :=
  0 ≤ ClipboardData.retry (m_clipboardData s) ≤ maxRetryCount ∧
  0 ≤ ClipboardData.retry (m_selectionData s) ≤ maxRetryCount ∧
  0 ≤ QTimer.interval (m_timerCheckAgain s) ≤ maxRetryCount * maxCheckAgainIntervalMs.

(** A tracker that is not dirty has nothing pending. *)
Definition settled (c : ClipboardData.t) : Prop :=
  ClipboardData.changed c = false → ClipboardData.data c = ClipboardData.newData c.

(** ** Sample states and reads *)

Definition bytes (s : string) : QByteArray := String.list_byte_of_string s.

Definition freshTracker (m : ClipboardMode) : ClipboardData.t :=
  ClipboardData.mk ∅ ∅ [] [] (QTimer.mk 0 false) ["text/plain"%string] [] m true 0 false.

(** Both trackers enabled and subscribed to plain text, nothing read yet,
    all timers idle. *)
Definition sample : X11PlatformClipboard :=
  mkX11 (freshTracker Clipboard) (freshTracker Selection) (QTimer.mk 0 false) [] [].

(** The clipboard holds "a", the selection "b". *)
Definition sampleRead : PlatformRead := λ m,
  match m with
  | Clipboard =>
      Some (<["text/plain"%string := bytes "a"]> (<["TIMESTAMP"%string := bytes "100"]> ∅))
  | Selection =>
      Some (<["text/plain"%string := bytes "b"]> (<["TIMESTAMP"%string := bytes "200"]> ∅))
  end.

(** No owner answers. *)
Definition failingRead : PlatformRead := λ _, None.

(** The sample state after the clipboard tracker found "a" in a poll and was
    then switched off: its debounce timer is running. *)
Definition sampleDisabledPending : X11PlatformClipboard :=
  setMonitoringEnabled Clipboard false
    (updateClipboardData ptr_clipboardData sampleRead sample).2.

(** The sample state after a check found "b" in the selection (the clipboard
    read fails): the selection's debounce timer is running and so is the
    shared timer, restarted at 500 ms by the retry. *)
Definition sampleSelectionPending : X11PlatformClipboard :=
  check (λ m, match m with Clipboard => None | Selection => sampleRead Selection end)
    sample.

(** The pointer state with the first button held. *)
Definition button1Held : Z := Button1Mask.

(** Both buffers are readable and empty. *)
Definition emptyRead : PlatformRead := λ _, Some ∅.

(** A first read of the clipboard: "a" as plain text, with a time stamp and
    an image that the sample tracker is not subscribed to. *)
Definition firstRead : QMimeData :=
  <["text/plain"%string := bytes "a"]>
    (<["TIMESTAMP"%string := bytes "100"]>
       (<["image/png"%string := bytes "pixels"]> ∅)).

(** A later read: the same plain text, a new time stamp, and HTML instead of
    the image. *)
Definition laterRead : QMimeData :=
  <["text/plain"%string := bytes "a"]>
    (<["TIMESTAMP"%string := bytes "101"]>
       (<["text/html"%string := bytes "<b>a</b>"]> ∅)).

(** The sample state once [firstRead] has been polled and published. *)
Definition samplePublished : X11PlatformClipboard :=
  useNewClipboardData ptr_clipboardData
    (updateClipboardData ptr_clipboardData (λ _, Some firstRead) sample).2.

(** The sample state after [startMonitoring]: "a" and "b" are published. *)
Definition sampleBaseline : X11PlatformClipboard :=
  startMonitoring "text/plain" ["text/plain"%string] sampleRead sample.

(** ** Further notions used to state what the object keeps *)

(** A debounce timer runs only for a tracker marked dirty. *)
Definition armedOnlyIfDirty (c : ClipboardData.t) : Prop :=
  QTimer.isActive (ClipboardData.timerEmitChange c) = true →
  ClipboardData.changed c = true.

(** The events that run [useNewClipboardData]: [startMonitoring], and a
    debounce timeout that the selection gate does not veto. *)
Definition publishes (e : Event) : bool :=
  match e with
  | CallStartMonitoring _ _ _ => true
  | TimeoutEmitChange ptr_clipboardData _ _ => true
  | TimeoutEmitChange ptr_selectionData isPlatformX11 xbutton_state =>
      negb (isSelectionIncomplete isPlatformX11 xbutton_state)
  | _ => false
  end.

(** [n] timeouts of the shared timer in a row, each reading
    [platformClipboard]. *)
Fixpoint checks (n : nat) (platformClipboard : PlatformRead)
    (s : X11PlatformClipboard) : X11PlatformClipboard :=
  match n with
  | O => s
  | S n => step (TimeoutCheckAgain platformClipboard) (checks n platformClipboard s)
  end.

(** Two platform reads give the same answer for the buffers of the enabled
    trackers of [s]. *)
Definition sameEnabledReads (rd rd' : PlatformRead) (s : X11PlatformClipboard) : Prop :=
  ∀ p, ClipboardData.enabled (deref p s) = true →
       rd (ClipboardData.mode (deref p s)) = rd' (ClipboardData.mode (deref p s)).

(** The sample state with the selection tracker switched off. *)
Definition sampleSelectionOff : X11PlatformClipboard :=
  setMonitoringEnabled Selection false sample.

(** The clipboard holds "a"; the selection has no owner. *)
Definition clipboardOnlyRead : PlatformRead := λ m,
  match m with Clipboard => sampleRead Clipboard | Selection => None end.

(** A read with new plain text under the time stamp of [firstRead]. *)
Definition staleStampRead : QMimeData :=
  <["text/plain"%string := bytes "z"]> (<["TIMESTAMP"%string := bytes "100"]> ∅).

(** The tracker that [onChanged] takes a signal mode for. *)
Definition trackerOfSignal (mode : Z) : ClipboardDataPtr :=
  if mode =? QClipboard_Clipboard then ptr_clipboardData else ptr_selectionData.

(** The events that assign the pending owner of the tracker [p]: a call of
    [startMonitoring] and an owner change for [p]. *)
Definition writesNewOwner (p : ClipboardDataPtr) (e : Event) : bool :=
  match e with
  | CallStartMonitoring _ _ _ => true
  | OwnerChanged mode _ => bool_decide (trackerOfSignal mode = p)
  | _ => false
  end.

(** [QClipboard::FindBuffer], a mode that is neither buffer of X11. *)
Definition QClipboard_FindBuffer : Z := 2.

(** How many [changed] signals an event emits: two for the baseline of
    [startMonitoring], one for any other event that publishes. *)
Definition emissionsOf (e : Event) : nat :=
  match e with
  | CallStartMonitoring _ _ _ => 2
  | _ => if publishes e then 1 else 0
  end.

(** The tracker that an event is addressed to, if it is addressed to one. *)
Definition addressee (e : Event) : option ClipboardDataPtr :=
  match e with
  | CallSetMonitoringEnabled m _ => Some (dataFor m)
  | OwnerChanged mode _ => Some (trackerOfSignal mode)
  | TimeoutEmitChange p _ _ => Some p
  | _ => None
  end.

(** * Properties *)

(** ** Reading the model back *)

Lemma deref_assign_same p c s : deref p (assign p c s) = c.
Proof. by destruct p. Qed.

Lemma deref_assign_other p q c s : p ≠ q → deref q (assign p c s) = deref q s.
Proof. by destruct p, q. Qed.

Lemma emitted_assign p c s : emitted (assign p c s) = emitted s.
Proof. by destruct p. Qed.

Lemma timerCheckAgain_assign p c s : m_timerCheckAgain (assign p c s) = m_timerCheckAgain s.
Proof. by destruct p. Qed.

Lemma logged_assign p c s : logged (assign p c s) = logged s.
Proof. by destruct p. Qed.

Lemma emitted_set_m_clipboardData v s : emitted (set_m_clipboardData v s) = emitted s.
Proof. reflexivity. Qed.

Lemma emitted_set_m_selectionData v s : emitted (set_m_selectionData v s) = emitted s.
Proof. reflexivity. Qed.

Lemma emitted_set_m_timerCheckAgain v s : emitted (set_m_timerCheckAgain v s) = emitted s.
Proof. reflexivity. Qed.

Lemma run_two e1 e2 s : run [e1; e2] s = step e2 (step e1 s).
Proof. reflexivity. Qed.

Lemma run_three e1 e2 e3 s : run [e1; e2; e3] s = step e3 (step e2 (step e1 s)).
Proof. reflexivity. Qed.

Lemma foldl_two {A B} (f : A → B → A) a x y : foldl f a [x; y] = f (f a x) y.
Proof. reflexivity. Qed.

(** [updateClipboardData] emits nothing, whatever it reads. *)
Lemma updateClipboardData_emitted p rd s :
  emitted (updateClipboardData p rd s).2 = emitted s.
Proof.
  unfold updateClipboardData.
  destruct (negb _); [done|].
  destruct (rd _) as [d|]; cbn zeta.
  - destruct (if negb _ then _ else _); cbn; apply emitted_assign.
  - cbn [snd]. destruct (_ <? _); cbn; [apply emitted_assign | done].
Qed.

Lemma useNewClipboardData_emitted p s :
  emitted (useNewClipboardData p s)
  = emitted s ++ [ClipboardData.mode (deref p s)].
Proof. unfold useNewClipboardData. cbn. by rewrite emitted_assign. Qed.

(** ** Where [changed] is emitted *)

Lemma checkAgainLater_emitted c i s : emitted (checkAgainLater c i s) = emitted s.
Proof. done. Qed.

Lemma stopTimers_emitted s : emitted (stopTimers s) = emitted s.
Proof. done. Qed.

Lemma check_changed_emitted rd s : emitted (check_changed rd s).2 = emitted s.
Proof.
  unfold check_changed.
  pose proof (updateClipboardData_emitted ptr_clipboardData rd s) as Hc.
  destruct (updateClipboardData ptr_clipboardData rd s) as [[] s1]; cbn in *; [done|].
  by rewrite updateClipboardData_emitted.
Qed.

Lemma check_emitted rd s : emitted (check rd s) = emitted s.
Proof.
  unfold check.
  pose proof (check_changed_emitted rd (stopTimers s)) as Hc.
  destruct (check_changed rd (stopTimers s)) as [c s1]; cbn in *.
  by destruct (QTimer.isActive _).
Qed.

Lemma setMonitoringEnabled_emitted m b s : emitted (setMonitoringEnabled m b s) = emitted s.
Proof. by destruct m. Qed.

Lemma onChanged_emitted mode title s : emitted (onChanged mode title s) = emitted s.
Proof.
  unfold onChanged. destruct (negb _); [done|].
  destruct (bool_decide _), (_ && _); cbn;
    rewrite ?checkAgainLater_emitted, ?emitted_assign; done.
Qed.

(** Closed facts about the sample states: split the conjunctions, then
    evaluate. *)
Ltac by_evaluation :=
  repeat match goal with |- _ ∧ _ => split end; vm_compute; reflexivity.

(** Case analysis along the branches of [updateClipboardData]. *)
Ltac update_cases :=
  unfold updateClipboardData; cbn;
  repeat (case_match; cbn in *; simplify_eq; try done).

(** What a poll of the tracker [p] leaves alone: the other tracker, and of
    [p] itself the mode, the subscription, the enabled flag and everything
    published. *)
Lemma updateClipboardData_frame p rd s :
  (∀ q, q ≠ p → deref q (updateClipboardData p rd s).2 = deref q s) ∧
  ClipboardData.mode (deref p (updateClipboardData p rd s).2)
  = ClipboardData.mode (deref p s) ∧
  ClipboardData.formats (deref p (updateClipboardData p rd s).2)
  = ClipboardData.formats (deref p s) ∧
  ClipboardData.enabled (deref p (updateClipboardData p rd s).2)
  = ClipboardData.enabled (deref p s) ∧
  ClipboardData.data (deref p (updateClipboardData p rd s).2)
  = ClipboardData.data (deref p s) ∧
  ClipboardData.owner (deref p (updateClipboardData p rd s).2)
  = ClipboardData.owner (deref p s) ∧
  ClipboardData.newOwner (deref p (updateClipboardData p rd s).2)
  = ClipboardData.newOwner (deref p s).
Proof.
  split.
  - intros q Hq. destruct p, q; try done; update_cases.
  - destruct p; update_cases.
Qed.

Lemma updateClipboardData_mode p q rd s :
  ClipboardData.mode (deref q (updateClipboardData p rd s).2)
  = ClipboardData.mode (deref q s).
Proof.
  destruct (decide (q = p)) as [->|Hq].
  - apply updateClipboardData_frame.
  - f_equal. by apply updateClipboardData_frame.
Qed.

Lemma useNewClipboardData_mode p q s :
  ClipboardData.mode (deref q (useNewClipboardData p s))
  = ClipboardData.mode (deref q s).
Proof. by destruct p, q. Qed.

Lemma startMonitoring_baseline_emitted rd s p :
  emitted (startMonitoring_baseline rd s p)
  = emitted s ++ [ClipboardData.mode (deref p s)].
Proof.
  unfold startMonitoring_baseline.
  rewrite useNewClipboardData_emitted, updateClipboardData_emitted, !emitted_assign.
  rewrite updateClipboardData_mode. by destruct p.
Qed.

Lemma startMonitoring_baseline_mode rd s p q :
  ClipboardData.mode (deref q (startMonitoring_baseline rd s p))
  = ClipboardData.mode (deref q s).
Proof.
  unfold startMonitoring_baseline.
  rewrite useNewClipboardData_mode, updateClipboardData_mode. by destruct p, q.
Qed.

Lemma startMonitoring_emitted mimeText formats rd s :
  emitted (startMonitoring mimeText formats rd s)
  = emitted s ++ [ClipboardData.mode (m_clipboardData s);
                  ClipboardData.mode (m_selectionData s)].
Proof.
  unfold startMonitoring, DummyClipboard_startMonitoring.
  rewrite emitted_set_m_selectionData, emitted_set_m_clipboardData,
    emitted_set_m_timerCheckAgain.
  rewrite foldl_two, !startMonitoring_baseline_emitted.
  rewrite (startMonitoring_baseline_mode _ _ ptr_clipboardData ptr_selectionData).
  rewrite emitted_set_m_selectionData, emitted_set_m_clipboardData, <- app_assoc.
  reflexivity.
Qed.

(** C2, as the code has it.  Every event of the loop adds to the emitted
    signals exactly this: a call of [startMonitoring] the two signals of its
    baseline publication, clipboard first, emitted before the call returns; a
    call of [setMonitoringEnabled], an owner change and a timeout of the
    shared timer nothing; a timeout of a debounce timer the one signal of its
    tracker, unless the selection gate vetoes it.  Each run of
    [useNewClipboardData] emits its tracker's mode once. *)
Theorem changed_emitted_by_publication_only (e : Event) (s : X11PlatformClipboard) :
  emitted (step e s)
  = emitted s ++
    match e with
    | CallStartMonitoring _ _ _ =>
        [ClipboardData.mode (m_clipboardData s); ClipboardData.mode (m_selectionData s)]
    | CallSetMonitoringEnabled _ _ | OwnerChanged _ _ | TimeoutCheckAgain _ => []
    | TimeoutEmitChange ptr_clipboardData _ _ => [ClipboardData.mode (m_clipboardData s)]
    | TimeoutEmitChange ptr_selectionData isPlatformX11 xbutton_state =>
        if isSelectionIncomplete isPlatformX11 xbutton_state then []
        else [ClipboardData.mode (m_selectionData s)]
    end
  ∧ ∀ p, emitted (useNewClipboardData p s)
         = emitted s ++ [ClipboardData.mode (deref p s)].
Proof.
  split; [|intros p; apply useNewClipboardData_emitted].
  destruct e as [mt fs rd|m b|mode title|rd|[] x11 st]; cbn [step].
  - apply startMonitoring_emitted.
  - by rewrite setMonitoringEnabled_emitted, app_nil_r.
  - by rewrite onChanged_emitted, app_nil_r.
  - by rewrite check_emitted, app_nil_r.
  - done.
  - unfold selectionEmitChange.
    destruct (isSelectionIncomplete x11 st); [|done].
    rewrite app_nil_r. by destruct (negb _).
Qed.

(** C2, as the spec has it, fails: from the sample state [startMonitoring]
    returns with two signals already emitted. *)
Lemma startMonitoring_emits_synchronously :
  emitted sample = [] ∧
  emitted (step (CallStartMonitoring "text/plain" ["text/plain"%string] sampleRead) sample)
  = [Clipboard; Selection].
Proof. split; [done|]. cbn [step]. by rewrite startMonitoring_emitted. Qed.

(** ** Publication *)

(** What one publication does to its tracker. *)
Lemma useNewClipboardData_tracker p s :
  deref p (useNewClipboardData p s)
  = ClipboardData.set_timerEmitChange
      (QTimer.stop (ClipboardData.timerEmitChange (deref p s)))
      (ClipboardData.set_changed false
         (ClipboardData.set_owner (ClipboardData.newOwner (deref p s))
            (ClipboardData.set_data (ClipboardData.newData (deref p s)) (deref p s)))).
Proof. by destruct p. Qed.

Lemma useNewClipboardData_other p q s :
  q ≠ p → deref q (useNewClipboardData p s) = deref q s.
Proof. by destruct p, q. Qed.

(** C3, as the code has it.  [useNewClipboardData] does not look at the dirty
    flag: run twice in a row it emits its signal twice.  The second run finds
    the flag cleared by the first and changes nothing but the emitted
    signals: both trackers, the shared timer and the log are as the first run
    left them.  A timeout of a debounce timer leaves that timer stopped, so
    the event loop cannot deliver it a second time before a poll restarts it. *)
Theorem publish_twice_emits_twice (p : ClipboardDataPtr) (s : X11PlatformClipboard) :
  emitted (useNewClipboardData p (useNewClipboardData p s))
  = emitted s ++ [ClipboardData.mode (deref p s); ClipboardData.mode (deref p s)] ∧
  ClipboardData.changed (deref p (useNewClipboardData p s)) = false ∧
  m_clipboardData (useNewClipboardData p (useNewClipboardData p s))
  = m_clipboardData (useNewClipboardData p s) ∧
  m_selectionData (useNewClipboardData p (useNewClipboardData p s))
  = m_selectionData (useNewClipboardData p s) ∧
  m_timerCheckAgain (useNewClipboardData p (useNewClipboardData p s))
  = m_timerCheckAgain (useNewClipboardData p s) ∧
  logged (useNewClipboardData p (useNewClipboardData p s))
  = logged (useNewClipboardData p s) ∧
  ∀ isPlatformX11 xbutton_state,
    deliverable (TimeoutEmitChange p isPlatformX11 xbutton_state)
      (step (TimeoutEmitChange p isPlatformX11 xbutton_state) s) = false.
Proof.
  split; [|split; [|split; [|split; [|split; [|split]]]]].
  - rewrite !useNewClipboardData_emitted, useNewClipboardData_mode.
    by rewrite <- app_assoc.
  - by rewrite useNewClipboardData_tracker.
  - by destruct p.
  - by destruct p.
  - by destruct p.
  - by destruct p.
  - intros x11 st. destruct p; cbn; [done|].
    unfold selectionEmitChange.
    destruct (isSelectionIncomplete x11 st); [|done].
    by destruct (negb _).
Qed.

(** C3, as the spec has it, fails: two publications of the sample state in a
    row, with no poll in between and the dirty flag clear after the first,
    emit two signals. *)
Lemma second_publish_emits_again :
  ClipboardData.changed
    (m_clipboardData (useNewClipboardData ptr_clipboardData sample)) = false ∧
  emitted (useNewClipboardData ptr_clipboardData sample) = [Clipboard] ∧
  emitted (useNewClipboardData ptr_clipboardData
             (useNewClipboardData ptr_clipboardData sample))
  = [Clipboard; Clipboard].
Proof. done. Qed.

(** C4, as the code has it.  The enabled flag is read by [updateClipboardData]
    and by [onChanged] only: a disabled tracker is neither polled nor marked
    dirty.  The publication does not read it: when the debounce timer of a
    disabled tracker times out (and, for the selection, the gate lets it
    pass), the pending data and owner are published, the dirty flag is
    cleared and [changed] is emitted, as for an enabled tracker. *)
Theorem disabled_tracker_still_publishes (p : ClipboardDataPtr)
    (isPlatformX11 : bool) (xbutton_state : Z) (s : X11PlatformClipboard) :
  ClipboardData.enabled (deref p s) = false →
  (p = ptr_selectionData → isSelectionIncomplete isPlatformX11 xbutton_state = false) →
  emitted (step (TimeoutEmitChange p isPlatformX11 xbutton_state) s)
  = emitted s ++ [ClipboardData.mode (deref p s)] ∧
  ClipboardData.data (deref p (step (TimeoutEmitChange p isPlatformX11 xbutton_state) s))
  = ClipboardData.newData (deref p s) ∧
  ClipboardData.owner (deref p (step (TimeoutEmitChange p isPlatformX11 xbutton_state) s))
  = ClipboardData.newOwner (deref p s) ∧
  ClipboardData.changed (deref p (step (TimeoutEmitChange p isPlatformX11 xbutton_state) s))
  = false ∧
  (∀ rd, updateClipboardData p rd s = (false, s)) ∧
  (∀ title,
     onChanged (signalMode p) title s = s).
Proof.
  intros Hoff Hgate. destruct p; cbn [step].
  - repeat split; try done.
    + intros rd. unfold updateClipboardData. by rewrite Hoff.
    + intros title. unfold onChanged. cbn. cbn in Hoff. by rewrite Hoff.
  - unfold selectionEmitChange. rewrite (Hgate eq_refl).
    repeat split; try done.
    + intros rd. unfold updateClipboardData. by rewrite Hoff.
    + intros title. unfold onChanged. cbn. cbn in Hoff. by rewrite Hoff.
Qed.

(** The clipboard tracker of the sample state, switched off while a change
    to "a" is waiting for its debounce timer. *)
Lemma disabled_tracker_still_publishes_witness :
  ClipboardData.enabled (deref ptr_clipboardData sampleDisabledPending) = false ∧
  deliverable (TimeoutEmitChange ptr_clipboardData true 0) sampleDisabledPending = true ∧
  emitted (step (TimeoutEmitChange ptr_clipboardData true 0) sampleDisabledPending)
  = emitted sampleDisabledPending ++ [Clipboard].
Proof.
  split; [done|]. split; [done|].
  apply (disabled_tracker_still_publishes ptr_clipboardData true 0 sampleDisabledPending);
    done.
Defined.

(** C4, as the spec has it, fails: in the sample state a change of the
    clipboard to "a" is detected, the tracker is disabled, and then its
    debounce timer times out.  The signal is emitted and "a" is published. *)
Lemma publish_of_disabled_tracker_is_not_a_noop :
  ClipboardData.enabled (m_clipboardData sampleDisabledPending) = false ∧
  deliverable (TimeoutEmitChange ptr_clipboardData true 0) sampleDisabledPending = true ∧
  emitted sampleDisabledPending = [] ∧
  emitted (step (TimeoutEmitChange ptr_clipboardData true 0) sampleDisabledPending)
  = [Clipboard] ∧
  ClipboardData.data (m_clipboardData sampleDisabledPending) = ∅ ∧
  ClipboardData.data
    (m_clipboardData (step (TimeoutEmitChange ptr_clipboardData true 0) sampleDisabledPending))
  = {[ "text/plain"%string := bytes "a" ]} ∧
  ClipboardData.changed (m_clipboardData sampleDisabledPending) = true ∧
  ClipboardData.changed
    (m_clipboardData (step (TimeoutEmitChange ptr_clipboardData true 0) sampleDisabledPending))
  = false.
Proof. by_evaluation. Qed.

(** ** The selection gate *)

(** The gate reports an incomplete selection exactly when, under X11, the
    first button or shift is held. *)
Lemma isSelectionIncomplete_bits isPlatformX11 xbutton_state :
  isSelectionIncomplete isPlatformX11 xbutton_state
  = isPlatformX11 && (Z.testbit xbutton_state 8 || Z.testbit xbutton_state 0).
Proof.
  unfold isSelectionIncomplete. destruct isPlatformX11; cbn [negb andb]; [|done].
  change (Z.lor Button1Mask ShiftMask) with 257.
  destruct (Z.land xbutton_state 257 =? 0) eqn:E.
  - apply Z.eqb_eq in E. symmetry. apply orb_false_iff.
    pose proof (f_equal (λ z, Z.testbit z 8) E) as H8.
    pose proof (f_equal (λ z, Z.testbit z 0) E) as H0.
    cbn beta in H8, H0. rewrite Z.land_spec in H8, H0.
    change (Z.testbit 257 8) with true in H8. change (Z.testbit 257 0) with true in H0.
    rewrite andb_true_r in H8, H0. rewrite Z.bits_0 in H8, H0. done.
  - apply Z.eqb_neq in E. cbn [negb]. symmetry.
    destruct (Z.testbit xbutton_state 8 || Z.testbit xbutton_state 0) eqn:B; [done|].
    apply orb_false_iff in B as [B8 B0]. exfalso. apply E.
    apply Z.bits_inj'. intros n Hn. rewrite Z.land_spec, Z.bits_0.
    destruct (decide (n = 8)) as [->|?]; [by rewrite B8|].
    destruct (decide (n = 0)) as [->|?]; [by rewrite B0|].
    apply andb_false_iff. right.
    assert (Hcases : n < 8 ∨ 8 < n) by lia. destruct Hcases as [Hlt|Hgt].
    + assert (Hn' : n = 1 ∨ n = 2 ∨ n = 3 ∨ n = 4 ∨ n = 5 ∨ n = 6 ∨ n = 7) by lia.
      destruct Hn' as [->|[->|[->|[->|[->|[->| ->]]]]]]; done.
    + apply Z.bits_above_log2; [lia|]. change (Z.log2 257) with 8. lia.
Qed.

(** C6, as the code has it.  When the selection's debounce timer times out
    while the gate reports an incomplete selection, nothing is emitted and
    nothing is published: the clipboard tracker is untouched and the
    selection tracker differs only by its debounce timer, now stopped.  The
    shared timer is started at 50 ms only if it is not running; a running
    shared timer keeps the interval it has.  Either way a re-check is
    pending afterwards. *)
Theorem incomplete_selection_is_not_published (isPlatformX11 : bool) (xbutton_state : Z)
    (s : X11PlatformClipboard) :
  isSelectionIncomplete isPlatformX11 xbutton_state = true →
  emitted (step (TimeoutEmitChange ptr_selectionData isPlatformX11 xbutton_state) s)
  = emitted s ∧
  m_clipboardData (step (TimeoutEmitChange ptr_selectionData isPlatformX11 xbutton_state) s)
  = m_clipboardData s ∧
  m_selectionData (step (TimeoutEmitChange ptr_selectionData isPlatformX11 xbutton_state) s)
  = ClipboardData.set_timerEmitChange
      (QTimer.stop (ClipboardData.timerEmitChange (m_selectionData s)))
      (m_selectionData s) ∧
  m_timerCheckAgain (step (TimeoutEmitChange ptr_selectionData isPlatformX11 xbutton_state) s)
  = (if QTimer.isActive (m_timerCheckAgain s) then m_timerCheckAgain s
     else QTimer.mk minCheckAgainIntervalMs true) ∧
  QTimer.isActive
    (m_timerCheckAgain
       (step (TimeoutEmitChange ptr_selectionData isPlatformX11 xbutton_state) s))
  = true.
Proof.
  intros Hgate. cbn [step]. unfold selectionEmitChange. rewrite Hgate.
  cbn. destruct (QTimer.isActive (m_timerCheckAgain s)) eqn:Hactive; cbn; done.
Qed.

(** The first button is held when the selection's debounce timer of the
    sample state times out, with no re-check pending: one is started at
    50 ms. *)
Lemma incomplete_selection_is_not_published_witness :
  isSelectionIncomplete true button1Held = true ∧
  emitted (step (TimeoutEmitChange ptr_selectionData true button1Held) sample)
  = emitted sample ∧
  m_timerCheckAgain (step (TimeoutEmitChange ptr_selectionData true button1Held) sample)
  = QTimer.mk 50 true.
Proof.
  split; [done|].
  pose proof (incomplete_selection_is_not_published true button1Held sample eq_refl)
    as (Hemit & _ & _ & Htimer & _).
  split; [exact Hemit | exact Htimer].
Defined.

(** C6, as the spec has it, fails: after a check that found a new selection
    the shared timer is already running (here at 500 ms); when the gate then
    vetoes the publication the timer keeps that interval, and no re-check at
    50 ms is scheduled. *)
Lemma veto_keeps_a_running_recheck :
  deliverable (TimeoutEmitChange ptr_selectionData true button1Held)
    sampleSelectionPending = true ∧
  ClipboardData.changed (m_selectionData sampleSelectionPending) = true ∧
  isSelectionIncomplete true button1Held = true ∧
  m_timerCheckAgain sampleSelectionPending = QTimer.mk 500 true ∧
  m_timerCheckAgain
    (step (TimeoutEmitChange ptr_selectionData true button1Held) sampleSelectionPending)
  = QTimer.mk 500 true.
Proof. by_evaluation. Qed.

(** ** The shared re-check timer *)

(** A poll touches the shared timer only to schedule a retry. *)
Lemma updateClipboardData_timer p rd s :
  (ClipboardData.enabled (deref p s) = true →
   is_Some (rd (ClipboardData.mode (deref p s)))) →
  m_timerCheckAgain (updateClipboardData p rd s).2 = m_timerCheckAgain s.
Proof.
  intros Hread. unfold updateClipboardData.
  destruct (ClipboardData.enabled (deref p s)); cbn [negb]; [|done].
  destruct (Hread eq_refl) as [d ->]. cbn zeta.
  destruct (if negb _ then _ else _); cbn [snd]; apply timerCheckAgain_assign.
Qed.

Lemma check_changed_timer rd s :
  (∀ p, ClipboardData.enabled (deref p s) = true →
        is_Some (rd (ClipboardData.mode (deref p s)))) →
  m_timerCheckAgain (check_changed rd s).2 = m_timerCheckAgain s.
Proof.
  intros Hread. unfold check_changed.
  pose proof (updateClipboardData_timer ptr_clipboardData rd s (Hread _)) as Hc.
  pose proof (updateClipboardData_frame ptr_clipboardData rd s) as [Hother _].
  specialize (Hother ptr_selectionData ltac:(done)).
  destruct (updateClipboardData ptr_clipboardData rd s) as [[] s1]; cbn [fst snd] in *;
    [done|].
  rewrite updateClipboardData_timer; [done|].
  rewrite Hother. apply Hread.
Qed.

(** ** Retries *)

Lemma updateClipboardData_bounded p rd s :
  bounded s → bounded (updateClipboardData p rd s).2.
Proof.
  unfold bounded, maxRetryCount, maxCheckAgainIntervalMs.
  intros (Hc & Hs & Ht).
  destruct p; unfold updateClipboardData, maxRetryCount, maxCheckAgainIntervalMs; cbn;
    repeat (case_match; cbn in *; simplify_eq; try done);
    repeat match goal with
           | H : (_ <? _) = true |- _ => apply Z.ltb_lt in H
           | H : (_ <? _) = false |- _ => apply Z.ltb_ge in H
           end; lia.
Qed.

Lemma useNewClipboardData_bounded p s : bounded s → bounded (useNewClipboardData p s).
Proof. by destruct p. Qed.

Lemma checkAgainLater_bounded c i s :
  0 ≤ i → bounded s → bounded (checkAgainLater c i s).
Proof.
  unfold bounded, checkAgainLater, maxRetryCount, maxCheckAgainIntervalMs.
  intros Hi (Hc & Hs & Ht). cbn.
  split; [done|]. split; [done|].
  destruct (i <? 500) eqn:E; [apply Z.ltb_lt in E; cbn; lia|].
  destruct c; cbn; lia.
Qed.

Lemma check_bounded rd s : bounded s → bounded (check rd s).
Proof.
  intros Hb. unfold check.
  assert (Hstop : bounded (stopTimers s)) by done.
  unfold check_changed.
  pose proof (updateClipboardData_bounded ptr_clipboardData rd _ Hstop) as H1.
  destruct (updateClipboardData ptr_clipboardData rd (stopTimers s)) as [[] s1];
    cbn [snd] in H1.
  - destruct (QTimer.isActive _); [done|].
    apply checkAgainLater_bounded; [|done].
    destruct H1 as (_ & _ & ?). unfold minCheckAgainIntervalMs. lia.
  - pose proof (updateClipboardData_bounded ptr_selectionData rd _ H1) as H2.
    destruct (updateClipboardData ptr_selectionData rd s1) as [c s2]; cbn [snd] in H2.
    destruct (QTimer.isActive _); [done|].
    apply checkAgainLater_bounded; [|done].
    destruct H2 as (_ & _ & ?). unfold minCheckAgainIntervalMs. lia.
Qed.

Lemma startMonitoring_bounded mimeText formats rd s :
  bounded s → bounded (startMonitoring mimeText formats rd s).
Proof.
  intros Hb. unfold startMonitoring, DummyClipboard_startMonitoring.
  rewrite foldl_two.
  set (s0 := set_m_selectionData _ (set_m_clipboardData _ s)).
  assert (H0 : bounded s0) by exact Hb.
  assert (Hbase : ∀ s p, bounded s → bounded (startMonitoring_baseline rd s p)).
  { intros s' p Hs'. unfold startMonitoring_baseline.
    apply useNewClipboardData_bounded, updateClipboardData_bounded. by destruct p. }
  pose proof (Hbase _ ptr_selectionData (Hbase _ ptr_clipboardData H0)) as H2.
  revert H2.
  generalize (startMonitoring_baseline rd
                (startMonitoring_baseline rd s0 ptr_clipboardData) ptr_selectionData).
  intros s2 (Hc & Hs & Ht).
  unfold bounded, initSingleShotTimer, maxRetryCount, maxCheckAgainIntervalMs in *.
  cbn. lia.
Qed.

(** The bounds hold after every event of the loop. *)
Lemma step_bounded e s : bounded s → bounded (step e s).
Proof.
  intros Hb. destruct e as [mt fs rd|m b|mode title|rd|p x11 st]; cbn [step].
  - by apply startMonitoring_bounded.
  - by destruct m.
  - unfold onChanged. destruct (negb _); [done|].
    destruct (mode =? QClipboard_Clipboard), (bool_decide _); cbn [assign deref];
      (destruct (_ && _); [done | by apply checkAgainLater_bounded]).
  - by apply check_bounded.
  - destruct p; [by apply useNewClipboardData_bounded|].
    unfold selectionEmitChange. destruct (isSelectionIncomplete _ _).
    + destruct Hb as (Hc & Hs & Ht).
      unfold bounded, minCheckAgainIntervalMs, maxRetryCount, maxCheckAgainIntervalMs in *.
      destruct (negb _); cbn in *; lia.
    + by apply useNewClipboardData_bounded.
Qed.

Lemma run_bounded es s : bounded s → bounded (run es s).
Proof.
  revert s. induction es as [|e es IH]; intros s Hb; [done|].
  cbn. apply IH. by apply step_bounded.
Qed.

(** ** The backoff of the shared timer *)

(** C7.  [checkAgainLater] starts the shared timer at the requested interval
    when that is below 500 ms, starts it at 500 ms when the request is 500 ms
    or more and something changed, and otherwise disarms it: the interval is
    set to 0 and the timer is not started.  It never leaves an interval above
    500 ms and touches nothing else.  In [check], which calls it on the
    stopped timer with [interval * 2 + 50], a cycle in which no read fails
    ends, from the interval [i] it found, with the timer started at
    [i * 2 + 50] while that is below 500 ms; beyond, the timer is started at
    500 ms if something changed and is left stopped, with interval 0, if
    nothing did.  The timer is never left above 500 ms by such a cycle, and
    the state it leaves is again within the bounds, ready for the next
    cycle. *)
Theorem checkAgainLater_backoff (anyChanged : bool) (requestedIntervalMs : Z)
    (rd : PlatformRead) (s : X11PlatformClipboard) :
  (requestedIntervalMs < maxCheckAgainIntervalMs →
     m_timerCheckAgain (checkAgainLater anyChanged requestedIntervalMs s)
     = QTimer.mk requestedIntervalMs true) ∧
  (maxCheckAgainIntervalMs ≤ requestedIntervalMs → anyChanged = true →
     m_timerCheckAgain (checkAgainLater anyChanged requestedIntervalMs s)
     = QTimer.mk maxCheckAgainIntervalMs true) ∧
  (maxCheckAgainIntervalMs ≤ requestedIntervalMs → anyChanged = false →
     m_timerCheckAgain (checkAgainLater anyChanged requestedIntervalMs s)
     = QTimer.mk 0 (QTimer.isActive (m_timerCheckAgain s))) ∧
  QTimer.interval (m_timerCheckAgain (checkAgainLater anyChanged requestedIntervalMs s))
  ≤ maxCheckAgainIntervalMs ∧
  m_clipboardData (checkAgainLater anyChanged requestedIntervalMs s) = m_clipboardData s ∧
  m_selectionData (checkAgainLater anyChanged requestedIntervalMs s) = m_selectionData s ∧
  emitted (checkAgainLater anyChanged requestedIntervalMs s) = emitted s ∧
  logged (checkAgainLater anyChanged requestedIntervalMs s) = logged s ∧
  (bounded s →
   (∀ p, ClipboardData.enabled (deref p s) = true →
         is_Some (rd (ClipboardData.mode (deref p s)))) →
   m_timerCheckAgain (check rd s)
   = (if QTimer.interval (m_timerCheckAgain s) * 2 + minCheckAgainIntervalMs
         <? maxCheckAgainIntervalMs
      then QTimer.mk (QTimer.interval (m_timerCheckAgain s) * 2 + minCheckAgainIntervalMs)
             true
      else if (check_changed rd (stopTimers s)).1
           then QTimer.mk maxCheckAgainIntervalMs true
           else QTimer.mk 0 false) ∧
   QTimer.interval (m_timerCheckAgain (check rd s)) ≤ maxCheckAgainIntervalMs ∧
   bounded (check rd s)).
Proof.
  unfold checkAgainLater, maxCheckAgainIntervalMs.
  split; [|split; [|split; [|split; [|split; [|split; [|split; [|split]]]]]]];
    cbn [m_timerCheckAgain m_clipboardData m_selectionData emitted logged
         set_m_timerCheckAgain]; try done.
  - intros Hlt. apply Z.ltb_lt in Hlt. by rewrite Hlt.
  - intros Hge ->. apply Z.ltb_ge in Hge. by rewrite Hge.
  - intros Hge ->. apply Z.ltb_ge in Hge. by rewrite Hge.
  - destruct (requestedIntervalMs <? 500) eqn:E; [apply Z.ltb_lt in E; cbn; lia|].
    destruct anyChanged; cbn; lia.
  - intros Hbounded Hread.
    assert (Htimer :
      m_timerCheckAgain (check rd s)
      = (if QTimer.interval (m_timerCheckAgain s) * 2 + minCheckAgainIntervalMs <? 500
         then QTimer.mk
                (QTimer.interval (m_timerCheckAgain s) * 2 + minCheckAgainIntervalMs) true
         else if (check_changed rd (stopTimers s)).1
              then QTimer.mk 500 true
              else QTimer.mk 0 false)).
    { unfold check.
      pose proof (check_changed_timer rd (stopTimers s)) as Hkept.
      destruct (check_changed rd (stopTimers s)) as [c s1]; cbn [fst snd] in *.
      assert (Hsame : m_timerCheckAgain s1 = m_timerCheckAgain (stopTimers s)).
      { apply Hkept. intros [] Hen;
          [exact (Hread ptr_clipboardData Hen) | exact (Hread ptr_selectionData Hen)]. }
      rewrite Hsame.
      unfold checkAgainLater, maxCheckAgainIntervalMs, minCheckAgainIntervalMs.
      cbn [m_timerCheckAgain set_m_timerCheckAgain]. rewrite !Hsame.
      cbn. destruct (_ <? 500); [done|]. by destruct c. }
    split; [exact Htimer|]. split; [|by apply check_bounded].
    rewrite Htimer.
    destruct (_ <? 500) eqn:E; [apply Z.ltb_lt in E; cbn; lia|].
    destruct (check_changed rd (stopTimers s)).1; cbn; lia.
Qed.

(** Four checks of the sample state in a row that read nothing new: the
    shared timer, idle at 0 ms, is started at 50, 150 and 350 ms and then
    left stopped. *)
Lemma checkAgainLater_backoff_witness :
  bounded sample ∧
  m_timerCheckAgain (check emptyRead sample) = QTimer.mk 50 true ∧
  m_timerCheckAgain (check emptyRead (check emptyRead sample)) = QTimer.mk 150 true ∧
  m_timerCheckAgain (check emptyRead (check emptyRead (check emptyRead sample)))
  = QTimer.mk 350 true ∧
  m_timerCheckAgain
    (check emptyRead (check emptyRead (check emptyRead (check emptyRead sample))))
  = QTimer.mk 0 false.
Proof.
  assert (Hb0 : bounded sample).
  { unfold bounded, maxRetryCount, maxCheckAgainIntervalMs. cbn. lia. }
  assert (Hread : ∀ s p, ClipboardData.enabled (deref p s) = true →
            is_Some (emptyRead (ClipboardData.mode (deref p s)))) by (intros; by eexists).
  pose proof (λ s Hb, proj2 (proj2 (proj2 (proj2 (proj2 (proj2 (proj2 (proj2
                (checkAgainLater_backoff false 0 emptyRead s)))))))) Hb (Hread s))
    as Hcycle.
  destruct (Hcycle sample Hb0) as (H1 & _ & Hb1).
  destruct (Hcycle _ Hb1) as (H2 & _ & Hb2).
  destruct (Hcycle _ Hb2) as (H3 & _ & Hb3).
  destruct (Hcycle _ Hb3) as (H4 & _ & _).
  split; [exact Hb0|].
  repeat match goal with |- _ ∧ _ => split end.
  - rewrite H1. vm_compute. reflexivity.
  - rewrite H2. vm_compute. reflexivity.
  - rewrite H3. vm_compute. reflexivity.
  - rewrite H4. vm_compute. reflexivity.
Defined.

(** One failed read of an enabled tracker, written out. *)
Lemma updateClipboardData_failed p rd s :
  ClipboardData.enabled (deref p s) = true →
  rd (ClipboardData.mode (deref p s)) = None →
  updateClipboardData p rd s
  = (false,
     if ClipboardData.retry (deref p s) <? maxRetryCount then
       log (FailedToRetrieve (ClipboardData.mode (deref p s))
              (ClipboardData.retry (deref p s) + 1) maxRetryCount)
         (set_m_timerCheckAgain
            (QTimer.mk ((ClipboardData.retry (deref p s) + 1) * maxCheckAgainIntervalMs)
               true)
            (assign p
               (ClipboardData.set_retry (ClipboardData.retry (deref p s) + 1) (deref p s))
               s))
     else
       log (FailedToRetrieve (ClipboardData.mode (deref p s))
              (ClipboardData.retry (deref p s)) maxRetryCount) s).
Proof.
  intros Hon Hfail. unfold updateClipboardData. rewrite Hon, Hfail. cbn [negb].
  destruct (_ <? _); [|done]. by destruct p.
Qed.

Lemma polls_failed_retry p rd n : ∀ s,
  ClipboardData.enabled (deref p s) = true →
  rd (ClipboardData.mode (deref p s)) = None →
  ClipboardData.retry (deref p s) ≤ maxRetryCount →
  ClipboardData.retry (deref p (polls n p rd s))
  = Z.min maxRetryCount (ClipboardData.retry (deref p s) + Z.of_nat n).
Proof.
  induction n as [|n IH]; intros s Hon Hfail Hle.
  - cbn [polls]. lia.
  - cbn [polls].
    pose proof (updateClipboardData_frame p rd s) as (_ & Hmode & _ & Hen & _).
    rewrite IH; [| by rewrite Hen | by rewrite Hmode |].
    + rewrite updateClipboardData_failed by done. cbn [snd].
      destruct (_ <? _) eqn:E; [apply Z.ltb_lt in E | apply Z.ltb_ge in E].
      * replace (ClipboardData.retry (deref p (log _ (set_m_timerCheckAgain _ (assign p _ s)))))
          with (ClipboardData.retry (deref p s) + 1) by (by destruct p).
        lia.
      * replace (ClipboardData.retry (deref p (log _ s)))
          with (ClipboardData.retry (deref p s)) by (by destruct p).
        lia.
    + rewrite updateClipboardData_failed by done. cbn [snd].
      destruct (_ <? _) eqn:E; [apply Z.ltb_lt in E | apply Z.ltb_ge in E].
      * replace (ClipboardData.retry (deref p (log _ (set_m_timerCheckAgain _ (assign p _ s)))))
          with (ClipboardData.retry (deref p s) + 1) by (by destruct p).
        lia.
      * replace (ClipboardData.retry (deref p (log _ s)))
          with (ClipboardData.retry (deref p s)) by (by destruct p).
        lia.
Qed.

(** C5.  A read of an enabled tracker fails.  The poll reports "no change"
    and logs the failure with the attempt count.  While the retry counter is
    below 3 it is incremented and the shared timer is started at the new
    count times 500 ms; from 3 on the counter, both trackers and the shared
    timer are left as they are, so no retry is scheduled.  After [n] failures
    in a row the counter is the smaller of 3 and its start value plus [n],
    and no sequence of events of the loop takes a counter above 3. *)
Theorem failed_reads_retry_at_most_three_times (p : ClipboardDataPtr) (rd : PlatformRead)
    (s : X11PlatformClipboard) :
  ClipboardData.enabled (deref p s) = true →
  rd (ClipboardData.mode (deref p s)) = None →
  ClipboardData.retry (deref p s) ≤ maxRetryCount →
  (updateClipboardData p rd s).1 = false ∧
  logged (updateClipboardData p rd s).2
  = logged s ++ [FailedToRetrieve (ClipboardData.mode (deref p s))
                   (ClipboardData.retry (deref p (updateClipboardData p rd s).2))
                   maxRetryCount] ∧
  emitted (updateClipboardData p rd s).2 = emitted s ∧
  (ClipboardData.retry (deref p s) < maxRetryCount →
     ClipboardData.retry (deref p (updateClipboardData p rd s).2)
     = ClipboardData.retry (deref p s) + 1 ∧
     m_timerCheckAgain (updateClipboardData p rd s).2
     = QTimer.mk ((ClipboardData.retry (deref p s) + 1) * maxCheckAgainIntervalMs) true) ∧
  (ClipboardData.retry (deref p s) = maxRetryCount →
     m_clipboardData (updateClipboardData p rd s).2 = m_clipboardData s ∧
     m_selectionData (updateClipboardData p rd s).2 = m_selectionData s ∧
     m_timerCheckAgain (updateClipboardData p rd s).2 = m_timerCheckAgain s) ∧
  (∀ n, ClipboardData.retry (deref p (polls n p rd s))
        = Z.min maxRetryCount (ClipboardData.retry (deref p s) + Z.of_nat n)) ∧
  (∀ es, bounded s → ∀ q, ClipboardData.retry (deref q (run es s)) ≤ maxRetryCount).
Proof.
  intros Hon Hfail Hle.
  rewrite updateClipboardData_failed by done. cbn [fst snd].
  split; [done|]. split; [|split; [|split; [|split; [|split]]]].
  - destruct (_ <? _); by destruct p.
  - destruct (_ <? _); by destruct p.
  - intros Hlt. apply Z.ltb_lt in Hlt. rewrite Hlt. by destruct p.
  - intros Heq. rewrite Heq, Z.ltb_irrefl. done.
  - intros n. by apply polls_failed_retry.
  - intros es Hb q. destruct (run_bounded es s Hb) as (Hc & Hs & _).
    destruct q; cbn [deref]; lia.
Qed.

(** Five reads of the sample's clipboard tracker fail in a row: the counter
    stops at 3. *)
Lemma failed_reads_retry_at_most_three_times_witness :
  ClipboardData.enabled (deref ptr_clipboardData sample) = true ∧
  failingRead (ClipboardData.mode (deref ptr_clipboardData sample)) = None ∧
  ClipboardData.retry (deref ptr_clipboardData sample) ≤ maxRetryCount ∧
  m_timerCheckAgain (updateClipboardData ptr_clipboardData failingRead sample).2
  = QTimer.mk 500 true ∧
  ClipboardData.retry (deref ptr_clipboardData (polls 5 ptr_clipboardData failingRead sample))
  = 3.
Proof.
  assert (Hle : ClipboardData.retry (deref ptr_clipboardData sample) ≤ maxRetryCount)
    by (vm_compute; discriminate).
  pose proof (failed_reads_retry_at_most_three_times ptr_clipboardData failingRead sample
                eq_refl eq_refl Hle) as (_ & _ & _ & Hlow & _ & Hn & _).
  split; [done|]. split; [done|]. split; [exact Hle|]. split.
  - apply Hlow. vm_compute. reflexivity.
  - rewrite Hn. vm_compute. reflexivity.
Defined.

(** ** Detecting a change *)

Lemma cloneData_agreeOn formats d1 d2 :
  agreeOn formats d1 d2 → cloneData d1 formats = cloneData d2 formats.
Proof.
  intros Hagree. unfold cloneData. apply map_eq. intros f.
  rewrite !map_lookup_filter.
  destruct (decide (f ∈ formats)) as [Hin|Hout].
  - by rewrite (Hagree f Hin).
  - destruct (d1 !! f), (d2 !! f); cbn; rewrite ?option_guard_False; done.
Qed.

(** The outcome of a poll does not depend on the published or the pending
    owner. *)
Lemma updateClipboardData_ignores_owner p rd s owner newOwner :
  (updateClipboardData p rd
     (assign p (ClipboardData.set_owner owner
                  (ClipboardData.set_newOwner newOwner (deref p s))) s)).1
  = (updateClipboardData p rd s).1.
Proof. destruct p; update_cases. Qed.

(** C8.  A tracker that is not dirty has published what [cloneData] kept of a
    read [S1], and nothing else is pending.  If the next read [S2] agrees
    with [S1] on every subscribed format, the poll reports "no change": it
    emits nothing, leaves the debounce timer and the dirty flag as they are
    and publishes nothing.  [S1] and [S2] may differ in any other format, the
    time stamp included, and the owners recorded in the tracker are of no
    account: the outcome of a poll is the same whatever they are. *)
Theorem unsubscribed_formats_make_no_change (p : ClipboardDataPtr) (rd : PlatformRead)
    (S1 S2 : QMimeData) (s : X11PlatformClipboard) :
  ClipboardData.changed (deref p s) = false →
  ClipboardData.data (deref p s) = cloneData S1 (ClipboardData.formats (deref p s)) →
  ClipboardData.newData (deref p s) = ClipboardData.data (deref p s) →
  rd (ClipboardData.mode (deref p s)) = Some S2 →
  agreeOn (ClipboardData.formats (deref p s)) S1 S2 →
  (updateClipboardData p rd s).1 = false ∧
  emitted (updateClipboardData p rd s).2 = emitted s ∧
  ClipboardData.timerEmitChange (deref p (updateClipboardData p rd s).2)
  = ClipboardData.timerEmitChange (deref p s) ∧
  ClipboardData.changed (deref p (updateClipboardData p rd s).2) = false ∧
  ClipboardData.data (deref p (updateClipboardData p rd s).2)
  = ClipboardData.data (deref p s) ∧
  ClipboardData.newData (deref p (updateClipboardData p rd s).2)
  = ClipboardData.data (deref p s) ∧
  (∀ owner newOwner,
     (updateClipboardData p rd
        (assign p (ClipboardData.set_owner owner
                     (ClipboardData.set_newOwner newOwner (deref p s))) s)).1
     = false).
Proof.
  intros Hclean Hpub Hpend Hread Hagree.
  assert (Hmain :
    (updateClipboardData p rd s).1 = false ∧
    ClipboardData.timerEmitChange (deref p (updateClipboardData p rd s).2)
    = ClipboardData.timerEmitChange (deref p s) ∧
    ClipboardData.changed (deref p (updateClipboardData p rd s).2) = false ∧
    ClipboardData.newData (deref p (updateClipboardData p rd s).2)
    = ClipboardData.data (deref p s)).
  { unfold updateClipboardData.
    destruct (ClipboardData.enabled (deref p s)); cbn [negb]; [|done].
    rewrite Hread. cbn zeta.
    set (cd2 := if _ || _ then _ else _).
    assert (Hcd2 : ClipboardData.changed cd2 = false ∧
                   ClipboardData.data cd2 = ClipboardData.data (deref p s) ∧
                   ClipboardData.newData cd2 = ClipboardData.data (deref p s) ∧
                   ClipboardData.timerEmitChange cd2
                   = ClipboardData.timerEmitChange (deref p s)).
    { unfold cd2. destruct (_ || _); cbn; [|done].
      repeat split; try done.
      by rewrite Hpub, (cloneData_agreeOn _ _ _ Hagree). }
    destruct Hcd2 as (Hc & Hd & Hn & Ht).
    rewrite Hc. cbn [negb]. rewrite bool_decide_eq_true_2 by congruence.
    cbn [fst snd]. by rewrite deref_assign_same. }
  destruct Hmain as (Hres & Htimer & Hchanged & Hnew).
  split; [done|]. split; [apply updateClipboardData_emitted|].
  split; [done|]. split; [done|]. split; [apply updateClipboardData_frame|].
  split; [done|].
  intros owner newOwner. by rewrite updateClipboardData_ignores_owner.
Qed.

(** The published clipboard came from [firstRead]; [laterRead] differs from
    it in the time stamp and in formats that are not subscribed. *)
Lemma unsubscribed_formats_make_no_change_witness :
  firstRead ≠ laterRead ∧
  (updateClipboardData ptr_clipboardData (λ _, Some laterRead) samplePublished).1 = false ∧
  emitted (updateClipboardData ptr_clipboardData (λ _, Some laterRead) samplePublished).2
  = emitted samplePublished.
Proof.
  split.
  { intros Heq. apply (f_equal (λ d : QMimeData, d !! "text/html"%string)) in Heq.
    vm_compute in Heq. discriminate. }
  assert (Hformats : ClipboardData.formats (deref ptr_clipboardData samplePublished)
                     = ["text/plain"%string]) by (vm_compute; reflexivity).
  assert (Hagree : agreeOn (ClipboardData.formats (deref ptr_clipboardData samplePublished))
                     firstRead laterRead).
  { intros f Hf. rewrite Hformats in Hf. apply list_elem_of_singleton in Hf as ->.
    vm_compute. reflexivity. }
  destruct (unsubscribed_formats_make_no_change ptr_clipboardData (λ _, Some laterRead)
              firstRead laterRead samplePublished) as (Hres & Hemit & _);
    [vm_compute; reflexivity | vm_compute; reflexivity | vm_compute; reflexivity
    | reflexivity | exact Hagree | ].
  split; [exact Hres | exact Hemit].
Defined.

(** ** Owner changes *)

(** What an owner change does to an enabled tracker: the dirty flag is set,
    the title is recorded as pending owner, and a check is pending. *)
Lemma onChanged_enabled p title s :
  ClipboardData.enabled (deref p s) = true →
  ClipboardData.changed (deref p (onChanged (signalMode p) title s)) = true ∧
  ClipboardData.enabled (deref p (onChanged (signalMode p) title s)) = true ∧
  ClipboardData.mode (deref p (onChanged (signalMode p) title s))
  = ClipboardData.mode (deref p s) ∧
  ClipboardData.newOwner (deref p (onChanged (signalMode p) title s)) = title ∧
  QTimer.isActive (m_timerCheckAgain (onChanged (signalMode p) title s)) = true.
Proof.
  intros Hon. unfold onChanged.
  destruct p; cbn in *; rewrite Hon; cbn.
  - case_bool_decide as Hne; cbn; repeat split; try done.
    all: by apply dec_stable in Hne.
  - case_bool_decide as Hne; cbn;
      destruct (QTimer.isActive (m_timerCheckAgain s)) eqn:Hact; cbn;
      repeat split; try done.
    all: by apply dec_stable in Hne.
Qed.

(** A dirty tracker whose read succeeds asks for publication, whatever was
    read. *)
Lemma updateClipboardData_dirty p rd d s :
  ClipboardData.enabled (deref p s) = true →
  ClipboardData.changed (deref p s) = true →
  rd (ClipboardData.mode (deref p s)) = Some d →
  (updateClipboardData p rd s).1 = true ∧
  QTimer.isActive
    (ClipboardData.timerEmitChange (deref p (updateClipboardData p rd s).2)) = true.
Proof.
  intros Hon Hdirty Hread. unfold updateClipboardData.
  rewrite Hon, Hread. cbn [negb]. cbn zeta.
  set (cd2 := if _ || _ then _ else _).
  assert (Hc : ClipboardData.changed cd2 = true).
  { unfold cd2. by destruct (_ || _). }
  rewrite Hc. cbn [negb fst snd]. by rewrite deref_assign_same.
Qed.

(** The trackers after a check are those after its two polls. *)
Lemma check_trackers rd s q :
  deref q (check rd s) = deref q (check_changed rd (stopTimers s)).2.
Proof.
  unfold check. destruct (check_changed rd (stopTimers s)) as [c s1]. cbn [snd].
  destruct (QTimer.isActive _); [done|]. by destruct q.
Qed.

Lemma stopTimers_after_timeout s :
  stopTimers (set_m_timerCheckAgain (QTimer.stop (m_timerCheckAgain s)) s) = stopTimers s.
Proof. done. Qed.

Lemma check_changed_mode rd s q :
  ClipboardData.mode (deref q (check_changed rd s).2) = ClipboardData.mode (deref q s).
Proof.
  unfold check_changed.
  pose proof (updateClipboardData_mode ptr_clipboardData q rd s) as Hc.
  destruct (updateClipboardData ptr_clipboardData rd s) as [[] s1]; cbn [snd] in *;
    [done|].
  by rewrite updateClipboardData_mode.
Qed.

Lemma check_mode rd s q :
  ClipboardData.mode (deref q (check rd s)) = ClipboardData.mode (deref q s).
Proof. rewrite check_trackers, check_changed_mode. by destruct q. Qed.

(** A debounce timeout that the gate does not veto emits the signal of its
    tracker. *)
Lemma timeoutEmitChange_emitted p x11 st s :
  (p = ptr_selectionData → isSelectionIncomplete x11 st = false) →
  emitted (step (TimeoutEmitChange p x11 st) s)
  = emitted s ++ [ClipboardData.mode (deref p s)].
Proof.
  intros Hgate. destruct p; cbn [step]; [done|].
  unfold selectionEmitChange. by rewrite (Hgate eq_refl).
Qed.

(** C10.  An owner change reaches an enabled tracker.  The dirty flag is set
    at once and a check is pending.  When that check reads the tracker's
    buffer (for the selection: the poll of the clipboard before it reports no
    change) and the read succeeds, the debounce timer is started whatever was
    read, be it what is published already, under the time stamp seen before;
    and when that timer times out (for the selection: with the gate open)
    [changed] is emitted for the tracker's mode. *)
Theorem owner_change_alone_is_published (p : ClipboardDataPtr) (title : QByteArray)
    (rd : PlatformRead) (d : QMimeData) (isPlatformX11 : bool) (xbutton_state : Z)
    (s : X11PlatformClipboard) :
  ClipboardData.enabled (deref p s) = true →
  rd (ClipboardData.mode (deref p s)) = Some d →
  (p = ptr_selectionData →
   (updateClipboardData ptr_clipboardData rd
      (stopTimers (onChanged (signalMode p) title s))).1 = false) →
  (p = ptr_selectionData → isSelectionIncomplete isPlatformX11 xbutton_state = false) →
  ClipboardData.changed (deref p (onChanged (signalMode p) title s)) = true ∧
  deliverable (TimeoutCheckAgain rd) (onChanged (signalMode p) title s) = true ∧
  deliverable (TimeoutEmitChange p isPlatformX11 xbutton_state)
    (run [OwnerChanged (signalMode p) title; TimeoutCheckAgain rd] s) = true ∧
  emitted (run [OwnerChanged (signalMode p) title; TimeoutCheckAgain rd;
                TimeoutEmitChange p isPlatformX11 xbutton_state] s)
  = emitted s ++ [ClipboardData.mode (deref p s)].
Proof.
  intros Hon Hread Hclip Hgate.
  destruct (onChanged_enabled p title s Hon) as (Hdirty & Hon1 & Hmode1 & _ & Hcheck).
  split; [done|]. split; [done|].
  rewrite run_three, run_two.
  change (step (OwnerChanged (signalMode p) title) s)
    with (onChanged (signalMode p) title s).
  set (s1 := onChanged (signalMode p) title s) in *.
  change (step (TimeoutCheckAgain rd) s1)
    with (check rd (set_m_timerCheckAgain (QTimer.stop (m_timerCheckAgain s1)) s1)).
  assert (Harmed : QTimer.isActive
            (ClipboardData.timerEmitChange
               (deref p (check rd
                  (set_m_timerCheckAgain (QTimer.stop (m_timerCheckAgain s1)) s1))))
            = true).
  { rewrite check_trackers, stopTimers_after_timeout. unfold check_changed.
    assert (Hon0 : ClipboardData.enabled (deref p (stopTimers s1)) = true)
      by (by destruct p).
    assert (Hdirty0 : ClipboardData.changed (deref p (stopTimers s1)) = true)
      by (by destruct p).
    assert (Hread0 : rd (ClipboardData.mode (deref p (stopTimers s1))) = Some d).
    { replace (ClipboardData.mode (deref p (stopTimers s1)))
        with (ClipboardData.mode (deref p s1)) by (by destruct p).
      by rewrite Hmode1. }
    destruct p.
    - destruct (updateClipboardData_dirty ptr_clipboardData rd d _ Hon0 Hdirty0 Hread0)
        as [Hres Htimer].
      destruct (updateClipboardData ptr_clipboardData rd (stopTimers s1)) as [c s2].
      cbn [fst snd] in *. by rewrite Hres.
    - specialize (Hclip eq_refl).
      pose proof (updateClipboardData_frame ptr_clipboardData rd (stopTimers s1))
        as [Hother _].
      specialize (Hother ptr_selectionData ltac:(done)).
      destruct (updateClipboardData ptr_clipboardData rd (stopTimers s1)) as [c s2].
      cbn [fst snd] in *. rewrite Hclip.
      apply (updateClipboardData_dirty ptr_selectionData rd d); by rewrite Hother. }
  split; [exact Harmed|].
  rewrite timeoutEmitChange_emitted by done.
  rewrite check_emitted, check_mode, emitted_set_m_timerCheckAgain.
  unfold s1 at 1. rewrite onChanged_emitted. do 2 f_equal.
  rewrite <- Hmode1. by destruct p.
Qed.

(** ** The order of the two polls *)

(** A poll reads and writes its own tracker: two states with the same
    tracker [p] give the same outcome and the same tracker afterwards. *)
Lemma updateClipboardData_local p rd s s' :
  deref p s = deref p s' →
  (updateClipboardData p rd s).1 = (updateClipboardData p rd s').1 ∧
  deref p (updateClipboardData p rd s).2 = deref p (updateClipboardData p rd s').2.
Proof.
  intros Hsame. unfold updateClipboardData. rewrite <- Hsame.
  destruct (negb _); [done|].
  destruct (rd _) as [d|]; cbn zeta.
  - destruct (if negb _ then _ else _); cbn [fst snd]; by rewrite !deref_assign_same.
  - cbn [fst snd]. destruct (_ <? _); [|by destruct p].
    by destruct p.
Qed.

(** After a poll that asked for publication, the tracker holds the time
    stamp of the read, and what [cloneData] keeps of it if the read has no
    time stamp. *)
Lemma updateClipboardData_read p rd s :
  (updateClipboardData p rd s).1 = true →
  ∃ d, rd (ClipboardData.mode (deref p s)) = Some d ∧
       ClipboardData.enabled (deref p s) = true ∧
       ClipboardData.newDataTimestamp (deref p (updateClipboardData p rd s).2)
       = QMimeData_data d "TIMESTAMP" ∧
       (isEmpty (QMimeData_data d "TIMESTAMP") = true →
        ClipboardData.newData (deref p (updateClipboardData p rd s).2)
        = cloneData d (ClipboardData.formats (deref p s))).
Proof.
  unfold updateClipboardData.
  destruct (ClipboardData.enabled (deref p s)); cbn [negb]; [|done].
  destruct (rd _) as [d|]; cbn zeta; [|done].
  intros Hres. exists d. split; [done|]. split; [done|].
  set (cd2 := if _ || _ then _ else _) in *.
  assert (Hcd2 : ClipboardData.newDataTimestamp cd2 = QMimeData_data d "TIMESTAMP" ∧
                 (isEmpty (QMimeData_data d "TIMESTAMP") = true →
                  ClipboardData.newData cd2
                  = cloneData d (ClipboardData.formats (deref p s)))).
  { unfold cd2. destruct (isEmpty _) eqn:Hempty; cbn [orb]; [by cbn|].
    destruct (bool_decide _) eqn:Hts; cbn; [|done].
    apply bool_decide_eq_true in Hts. by split. }
  destruct (if negb _ then _ else _) as [cd4|] eqn:Hcd3; [|done].
  cbn [snd]. rewrite deref_assign_same.
  destruct (negb (ClipboardData.changed cd2)).
  - case_bool_decide; [done|]. by simplify_eq.
  - by simplify_eq.
Qed.

(** A poll that finds its tracker clean, nothing pending, and the time stamp
    it has stored (or, without a time stamp, the data it has stored) reports
    no change. *)
Lemma updateClipboardData_unchanged p rd d s :
  ClipboardData.enabled (deref p s) = true →
  rd (ClipboardData.mode (deref p s)) = Some d →
  ClipboardData.changed (deref p s) = false →
  ClipboardData.data (deref p s) = ClipboardData.newData (deref p s) →
  ClipboardData.newDataTimestamp (deref p s) = QMimeData_data d "TIMESTAMP" →
  (isEmpty (QMimeData_data d "TIMESTAMP") = true →
   ClipboardData.newData (deref p s) = cloneData d (ClipboardData.formats (deref p s))) →
  (updateClipboardData p rd s).1 = false.
Proof.
  intros Hon Hread Hclean Hsettled Hstamp Hdata. unfold updateClipboardData.
  rewrite Hon, Hread. cbn [negb]. cbn zeta.
  set (cd2 := if _ || _ then _ else _).
  assert (Hcd2 : ClipboardData.changed cd2 = false ∧
                 ClipboardData.data cd2 = ClipboardData.newData cd2).
  { unfold cd2. destruct (isEmpty _) eqn:Hempty; cbn [orb].
    - cbn. split; [done|]. by rewrite Hsettled, Hdata.
    - rewrite bool_decide_eq_true_2 by exact Hstamp. by cbn. }
  destruct Hcd2 as [Hc Hd]. rewrite Hc. cbn [negb].
  by rewrite bool_decide_eq_true_2.
Qed.

(** A poll that asks for publication has started the debounce timer. *)
Lemma updateClipboardData_true_arms p rd s :
  (updateClipboardData p rd s).1 = true →
  QTimer.isActive
    (ClipboardData.timerEmitChange (deref p (updateClipboardData p rd s).2)) = true.
Proof.
  unfold updateClipboardData.
  destruct (negb _); [done|].
  destruct (rd _) as [d|]; cbn zeta; [|done].
  destruct (if negb _ then _ else _); cbn [fst snd]; [|done].
  intros _. by rewrite deref_assign_same.
Qed.

(** The check when the clipboard poll asks for publication: the selection is
    not polled, and a re-check is scheduled. *)
Lemma check_clipboard_changed rd s :
  (updateClipboardData ptr_clipboardData rd (stopTimers s)).1 = true →
  m_clipboardData (check rd s)
  = m_clipboardData (updateClipboardData ptr_clipboardData rd (stopTimers s)).2 ∧
  m_selectionData (check rd s) = m_selectionData (stopTimers s) ∧
  QTimer.isActive (m_timerCheckAgain (check rd s)) = true.
Proof.
  intros Hres. unfold check, check_changed.
  pose proof (updateClipboardData_frame ptr_clipboardData rd (stopTimers s)) as [Hother _].
  specialize (Hother ptr_selectionData ltac:(done)).
  destruct (updateClipboardData ptr_clipboardData rd (stopTimers s)) as [c s1].
  cbn [fst snd] in *. rewrite Hres.
  destruct (QTimer.isActive (m_timerCheckAgain s1)) eqn:Hact; [done|].
  split; [done|]. split; [exact Hother|].
  unfold checkAgainLater. cbn [m_timerCheckAgain set_m_timerCheckAgain].
  by destruct (_ <? _).
Qed.

(** The check when the clipboard poll reports no change: the selection is
    polled next. *)
Lemma check_clipboard_unchanged rd s :
  (updateClipboardData ptr_clipboardData rd (stopTimers s)).1 = false →
  m_selectionData (check rd s)
  = m_selectionData
      (updateClipboardData ptr_selectionData rd
         (updateClipboardData ptr_clipboardData rd (stopTimers s)).2).2 ∧
  ((updateClipboardData ptr_selectionData rd
      (updateClipboardData ptr_clipboardData rd (stopTimers s)).2).1 = true →
   QTimer.isActive (m_timerCheckAgain (check rd s)) = true).
Proof.
  intros Hres. unfold check, check_changed.
  destruct (updateClipboardData ptr_clipboardData rd (stopTimers s)) as [c s1].
  cbn [fst snd] in *. rewrite Hres.
  destruct (updateClipboardData ptr_selectionData rd s1) as [c2 s2].
  cbn [fst snd].
  destruct (QTimer.isActive (m_timerCheckAgain s2)) eqn:Hact; [done|].
  split; [done|]. intros ->.
  unfold checkAgainLater. cbn [m_timerCheckAgain set_m_timerCheckAgain].
  by destruct (_ <? _).
Qed.

(** No event of the loop assigns the [mode] of a tracker. *)
Lemma step_mode e s q :
  ClipboardData.mode (deref q (step e s)) = ClipboardData.mode (deref q s).
Proof.
  destruct e as [mt fs rd|m b|mode title|rd|p x11 st]; cbn [step].
  - unfold startMonitoring, DummyClipboard_startMonitoring. rewrite foldl_two.
    set (s0 := set_m_selectionData _ (set_m_clipboardData _ s)).
    assert (H2 : ClipboardData.mode
                   (deref q (startMonitoring_baseline rd
                               (startMonitoring_baseline rd s0 ptr_clipboardData)
                               ptr_selectionData))
                 = ClipboardData.mode (deref q s0))
      by (by rewrite !startMonitoring_baseline_mode).
    revert H2.
    generalize (startMonitoring_baseline rd
                  (startMonitoring_baseline rd s0 ptr_clipboardData) ptr_selectionData).
    intros s2 H2. transitivity (ClipboardData.mode (deref q s2)); [by destruct q|].
    rewrite H2. by destruct q.
  - by destruct m, q.
  - unfold onChanged. destruct (negb _); [done|].
    destruct (mode =? QClipboard_Clipboard), (bool_decide _), (_ && _), q; done.
  - rewrite check_mode. by destruct q.
  - destruct p.
    + unfold clipboardEmitChange. rewrite useNewClipboardData_mode. by destruct q.
    + unfold selectionEmitChange. destruct (isSelectionIncomplete _ _).
      * destruct (negb _); by destruct q.
      * rewrite useNewClipboardData_mode. by destruct q.
Qed.

Lemma step_preserves_constructed e s : constructed s → constructed (step e s).
Proof.
  intros [Hc Hs]. split.
  - rewrite <- Hc. exact (step_mode e s ptr_clipboardData).
  - rewrite <- Hs. exact (step_mode e s ptr_selectionData).
Qed.

Lemma timeoutCheckAgain_emitted rd s :
  emitted (step (TimeoutCheckAgain rd) s) = emitted s.
Proof. cbn [step]. by rewrite check_emitted. Qed.

Lemma run_one e s : run [e] s = step e s.
Proof. reflexivity. Qed.

Lemma run_four e1 e2 e3 e4 s :
  run [e1; e2; e3; e4] s = step e4 (step e3 (step e2 (step e1 s))).
Proof. reflexivity. Qed.

(** After the clipboard's debounce timeout the clipboard tracker is what the
    publication makes of it, and nothing else has changed. *)
Lemma timeoutEmitChange_clipboard x11 st s :
  m_clipboardData (step (TimeoutEmitChange ptr_clipboardData x11 st) s)
  = ClipboardData.set_timerEmitChange
      (QTimer.stop (ClipboardData.timerEmitChange (m_clipboardData s)))
      (ClipboardData.set_changed false
         (ClipboardData.set_owner (ClipboardData.newOwner (m_clipboardData s))
            (ClipboardData.set_data (ClipboardData.newData (m_clipboardData s))
               (m_clipboardData s)))) ∧
  m_selectionData (step (TimeoutEmitChange ptr_clipboardData x11 st) s)
  = m_selectionData s ∧
  m_timerCheckAgain (step (TimeoutEmitChange ptr_clipboardData x11 st) s)
  = m_timerCheckAgain s.
Proof. done. Qed.

(** Both buffers have a change pending when the shared timer times out.  The
    check starts the clipboard's debounce timer only; once that has timed
    out and the clipboard is published, the next check finds the clipboard
    unchanged and starts the selection's debounce timer. *)
Lemma both_pending rd x11 st s :
  (updateClipboardData ptr_clipboardData rd (stopTimers s)).1 = true →
  (updateClipboardData ptr_selectionData rd (stopTimers s)).1 = true →
  deliverable (TimeoutEmitChange ptr_clipboardData x11 st)
    (step (TimeoutCheckAgain rd) s) = true ∧
  deliverable (TimeoutEmitChange ptr_selectionData x11 st)
    (step (TimeoutCheckAgain rd) s) = false ∧
  deliverable (TimeoutEmitChange ptr_selectionData x11 st)
    (step (TimeoutEmitChange ptr_clipboardData x11 st)
       (step (TimeoutCheckAgain rd) s)) = false ∧
  deliverable (TimeoutCheckAgain rd)
    (step (TimeoutEmitChange ptr_clipboardData x11 st)
       (step (TimeoutCheckAgain rd) s)) = true ∧
  deliverable (TimeoutEmitChange ptr_selectionData x11 st)
    (step (TimeoutCheckAgain rd)
       (step (TimeoutEmitChange ptr_clipboardData x11 st)
          (step (TimeoutCheckAgain rd) s))) = true.
Proof.
  intros Hclip Hsel.
  (* the first check *)
  set (sA := step (TimeoutCheckAgain rd) s).
  destruct (check_clipboard_changed rd
              (set_m_timerCheckAgain (QTimer.stop (m_timerCheckAgain s)) s) Hclip)
    as (HclipA & HselA & HtimerA).
  fold (step (TimeoutCheckAgain rd) s) in HclipA, HselA, HtimerA.
  fold sA in HclipA, HselA, HtimerA.
  rewrite stopTimers_after_timeout in HclipA, HselA.
  clearbody sA.
  pose proof (updateClipboardData_true_arms ptr_clipboardData rd _ Hclip) as Harmed.
  destruct (updateClipboardData_read ptr_clipboardData rd _ Hclip)
    as (d & Hread & Hon & Hstamp & Hdata).
  pose proof (updateClipboardData_frame ptr_clipboardData rd (stopTimers s))
    as (_ & Hmode & Hformats & Henabled & _).
  revert HclipA Harmed Hstamp Hdata Hmode Hformats Henabled.
  generalize (updateClipboardData ptr_clipboardData rd (stopTimers s)).2.
  intros u1 HclipA Harmed Hstamp Hdata Hmode Hformats Henabled.
  cbn [deref] in Harmed, Hstamp, Hdata, Hmode, Hformats, Henabled, Hread, Hon.
  rewrite <- HclipA in Harmed, Hstamp, Hdata, Hmode, Hformats, Henabled.
  clear u1 HclipA.
  split; [exact Harmed|].
  split; [cbn [deliverable deref]; by rewrite HselA|].
  (* the publication of the clipboard *)
  destruct (timeoutEmitChange_clipboard x11 st sA) as (HclipB & HselB & HtimerB).
  revert HclipB HselB HtimerB.
  generalize (step (TimeoutEmitChange ptr_clipboardData x11 st) sA).
  intros sB HclipB HselB HtimerB.
  split; [cbn [deliverable deref]; by rewrite HselB, HselA|].
  split; [cbn [deliverable]; by rewrite HtimerB|].
  (* the second check *)
  assert (Hquiet : (updateClipboardData ptr_clipboardData rd
                      (stopTimers (set_m_timerCheckAgain
                                     (QTimer.stop (m_timerCheckAgain sB)) sB))).1 = false).
  { rewrite stopTimers_after_timeout.
    apply (updateClipboardData_unchanged ptr_clipboardData rd d);
      cbn [deref stopTimers m_clipboardData set_m_clipboardData set_m_selectionData
           set_m_timerCheckAgain]; rewrite HclipB; cbn.
    - by rewrite Henabled.
    - by rewrite Hmode.
    - done.
    - done.
    - exact Hstamp.
    - intros Hempty. by rewrite Hformats, (Hdata Hempty). }
  destruct (check_clipboard_unchanged rd _ Hquiet) as (HselC & _).
  fold (step (TimeoutCheckAgain rd) sB) in HselC.
  cbn [deliverable deref]. rewrite HselC.
  rewrite stopTimers_after_timeout.
  pose proof (updateClipboardData_frame ptr_clipboardData rd (stopTimers sB)) as [Hother _].
  specialize (Hother ptr_selectionData ltac:(done)).
  assert (Hsame : deref ptr_selectionData
                    (updateClipboardData ptr_clipboardData rd (stopTimers sB)).2
                  = deref ptr_selectionData (stopTimers s)).
  { rewrite Hother. cbn [deref stopTimers m_selectionData set_m_clipboardData
                         set_m_selectionData set_m_timerCheckAgain].
    rewrite HselB, HselA. by cbn. }
  destruct (updateClipboardData_local ptr_selectionData rd _ _ Hsame) as [Hres _].
  apply (updateClipboardData_true_arms ptr_selectionData). by rewrite Hres.
Qed.

(** C1, as the code has it.  [check] polls the clipboard tracker first.  Its
    [changed] is the disjunction of the two polls' results, evaluated with
    the short circuit of [||]: the selection tracker is polled only when the
    clipboard poll reports no change, and is left untouched otherwise.  When
    both buffers have a change pending, the check starts the clipboard's
    debounce timer and not the selection's; the selection's is started by
    the check that follows the publication of the clipboard, so that
    [changed] is emitted for the clipboard first and for the selection
    second. *)
Theorem check_polls_clipboard_first (rd : PlatformRead) (isPlatformX11 : bool)
    (xbutton_state : Z) (s : X11PlatformClipboard) :
  (check_changed rd s).1
  = (updateClipboardData ptr_clipboardData rd s).1
    || (updateClipboardData ptr_selectionData rd
          (updateClipboardData ptr_clipboardData rd s).2).1 ∧
  ((updateClipboardData ptr_clipboardData rd s).1 = true →
   check_changed rd s = (true, (updateClipboardData ptr_clipboardData rd s).2) ∧
   m_selectionData (check_changed rd s).2 = m_selectionData s) ∧
  ((updateClipboardData ptr_clipboardData rd s).1 = false →
   check_changed rd s
   = updateClipboardData ptr_selectionData rd
       (updateClipboardData ptr_clipboardData rd s).2) ∧
  ((updateClipboardData ptr_clipboardData rd (stopTimers s)).1 = true →
   (updateClipboardData ptr_selectionData rd (stopTimers s)).1 = true →
   isSelectionIncomplete isPlatformX11 xbutton_state = false →
   deliverable (TimeoutEmitChange ptr_clipboardData isPlatformX11 xbutton_state)
     (run [TimeoutCheckAgain rd] s) = true ∧
   deliverable (TimeoutEmitChange ptr_selectionData isPlatformX11 xbutton_state)
     (run [TimeoutCheckAgain rd] s) = false ∧
   deliverable (TimeoutEmitChange ptr_selectionData isPlatformX11 xbutton_state)
     (run [TimeoutCheckAgain rd;
           TimeoutEmitChange ptr_clipboardData isPlatformX11 xbutton_state] s) = false ∧
   deliverable (TimeoutCheckAgain rd)
     (run [TimeoutCheckAgain rd;
           TimeoutEmitChange ptr_clipboardData isPlatformX11 xbutton_state] s) = true ∧
   deliverable (TimeoutEmitChange ptr_selectionData isPlatformX11 xbutton_state)
     (run [TimeoutCheckAgain rd;
           TimeoutEmitChange ptr_clipboardData isPlatformX11 xbutton_state;
           TimeoutCheckAgain rd] s) = true ∧
   emitted (run [TimeoutCheckAgain rd;
                 TimeoutEmitChange ptr_clipboardData isPlatformX11 xbutton_state;
                 TimeoutCheckAgain rd;
                 TimeoutEmitChange ptr_selectionData isPlatformX11 xbutton_state] s)
   = emitted s ++ [ClipboardData.mode (m_clipboardData s);
                   ClipboardData.mode (m_selectionData s)]).
Proof.
  split; [|split; [|split]].
  - unfold check_changed.
    by destruct (updateClipboardData ptr_clipboardData rd s) as [[] s1].
  - intros Hres. unfold check_changed.
    pose proof (updateClipboardData_frame ptr_clipboardData rd s) as [Hother _].
    specialize (Hother ptr_selectionData ltac:(done)).
    destruct (updateClipboardData ptr_clipboardData rd s) as [c s1].
    cbn [fst snd] in *. by rewrite Hres.
  - intros Hres. unfold check_changed.
    destruct (updateClipboardData ptr_clipboardData rd s) as [c s1].
    cbn [fst snd] in *. by rewrite Hres.
  - intros Hclip Hsel Hgate.
    rewrite run_one, run_two, run_three, run_four.
    destruct (both_pending rd isPlatformX11 xbutton_state s Hclip Hsel)
      as (H1 & H2 & H3 & H4 & H5).
    split; [exact H1|]. split; [exact H2|]. split; [exact H3|].
    split; [exact H4|]. split; [exact H5|].
    rewrite timeoutEmitChange_emitted by done.
    rewrite timeoutCheckAgain_emitted.
    rewrite timeoutEmitChange_emitted by done.
    rewrite timeoutCheckAgain_emitted.
    rewrite !step_mode, <- app_assoc. reflexivity.
Qed.

(** In the sample state "a" is pending for the clipboard and "b" for the
    selection when the shared timer times out. *)
Lemma check_polls_clipboard_first_witness :
  (updateClipboardData ptr_clipboardData sampleRead (stopTimers sample)).1 = true ∧
  (updateClipboardData ptr_selectionData sampleRead (stopTimers sample)).1 = true ∧
  isSelectionIncomplete true 0 = false ∧
  emitted (run [TimeoutCheckAgain sampleRead;
                TimeoutEmitChange ptr_clipboardData true 0;
                TimeoutCheckAgain sampleRead;
                TimeoutEmitChange ptr_selectionData true 0] sample)
  = [Clipboard; Selection].
Proof.
  assert (Hclip : (updateClipboardData ptr_clipboardData sampleRead
                     (stopTimers sample)).1 = true) by (vm_compute; reflexivity).
  assert (Hsel : (updateClipboardData ptr_selectionData sampleRead
                    (stopTimers sample)).1 = true) by (vm_compute; reflexivity).
  assert (Hgate : isSelectionIncomplete true 0 = false) by reflexivity.
  split; [exact Hclip|]. split; [exact Hsel|]. split; [exact Hgate|].
  destruct (check_polls_clipboard_first sampleRead true 0 sample)
    as (_ & _ & _ & Hboth).
  destruct (Hboth Hclip Hsel Hgate) as (_ & _ & _ & _ & _ & Hemitted).
  exact Hemitted.
Defined.

(** C1, as the spec has it, fails: in the sample state both buffers have a
    change pending, and the check reports a change without polling the
    selection tracker, which a poll would have marked dirty with "b" pending
    and its debounce timer started. *)
Lemma selection_not_polled_when_clipboard_changed :
  (updateClipboardData ptr_clipboardData sampleRead (stopTimers sample)).1 = true ∧
  (updateClipboardData ptr_selectionData sampleRead (stopTimers sample)).1 = true ∧
  (check_changed sampleRead (stopTimers sample)).1 = true ∧
  m_selectionData (check sampleRead sample) = m_selectionData sample ∧
  ClipboardData.newData
    (m_selectionData
       (updateClipboardData ptr_selectionData sampleRead (stopTimers sample)).2)
  = {[ "text/plain"%string := bytes "b" ]} ∧
  ClipboardData.newData (m_selectionData (check sampleRead sample)) = ∅ ∧
  ClipboardData.changed
    (m_selectionData
       (updateClipboardData ptr_selectionData sampleRead (stopTimers sample)).2)
  = true ∧
  ClipboardData.changed (m_selectionData (check sampleRead sample)) = false.
Proof. by_evaluation. Qed.

(** The owner of the selection changes after the baseline of
    [startMonitoring]; the selection still reads "b" under the time stamp
    stored, which is what is published. *)
Lemma owner_change_alone_is_published_witness :
  ClipboardData.enabled (deref ptr_selectionData sampleBaseline) = true ∧
  cloneData (<["text/plain"%string := bytes "b"]> (<["TIMESTAMP"%string := bytes "200"]> ∅))
    (ClipboardData.formats (deref ptr_selectionData sampleBaseline))
  = ClipboardData.data (deref ptr_selectionData sampleBaseline) ∧
  ClipboardData.newDataTimestamp (deref ptr_selectionData sampleBaseline) = bytes "200" ∧
  emitted (run [OwnerChanged (signalMode ptr_selectionData) (bytes "terminal");
                TimeoutCheckAgain sampleRead;
                TimeoutEmitChange ptr_selectionData true 0] sampleBaseline)
  = emitted sampleBaseline ++ [Selection].
Proof.
  split; [vm_compute; reflexivity|]. split; [vm_compute; reflexivity|].
  split; [vm_compute; reflexivity|].
  destruct (owner_change_alone_is_published ptr_selectionData (bytes "terminal") sampleRead
              (<["text/plain"%string := bytes "b"]> (<["TIMESTAMP"%string := bytes "200"]> ∅))
              true 0 sampleBaseline) as (_ & _ & _ & Hemitted).
  - vm_compute; reflexivity.
  - vm_compute; reflexivity.
  - intros _. vm_compute; reflexivity.
  - intros _. reflexivity.
  - rewrite Hemitted. vm_compute; reflexivity.
Defined.

(** ** Clean trackers have nothing pending *)

Lemma updateClipboardData_settled p q rd s :
  settled (deref q s) → settled (deref q (updateClipboardData p rd s).2).
Proof.
  destruct (decide (q = p)) as [->|Hq].
  - unfold settled, updateClipboardData.
    destruct (negb _); [done|].
    destruct (rd _) as [d|]; cbn zeta.
    + set (cd2 := if _ || _ then _ else _).
      destruct (ClipboardData.changed cd2) eqn:Hc; cbn [negb snd].
      * rewrite deref_assign_same. cbn. by rewrite Hc.
      * case_bool_decide as Heq; cbn [snd]; rewrite deref_assign_same; [done|].
        by cbn.
    + cbn [snd]. destruct (_ <? _); by destruct p.
  - by rewrite (proj1 (updateClipboardData_frame p rd s) q Hq).
Qed.

Lemma useNewClipboardData_settled p q s :
  settled (deref q s) → settled (deref q (useNewClipboardData p s)).
Proof. destruct p, q; unfold settled; cbn; done. Qed.

Lemma check_settled rd s q : settled (deref q s) → settled (deref q (check rd s)).
Proof.
  intros Hs. rewrite check_trackers. unfold check_changed.
  assert (H0 : settled (deref q (stopTimers s))) by (by destruct q).
  pose proof (updateClipboardData_settled ptr_clipboardData q rd _ H0) as H1.
  destruct (updateClipboardData ptr_clipboardData rd (stopTimers s)) as [[] s1];
    cbn [snd] in *; [done|].
  by apply updateClipboardData_settled.
Qed.

(** After every event of the loop a tracker whose dirty flag is clear has its
    pending data published. *)
Lemma step_settled e s :
  (∀ q, settled (deref q s)) → ∀ q, settled (deref q (step e s)).
Proof.
  intros Hs q. destruct e as [mt fs rd|m b|mode title|rd|p x11 st]; cbn [step].
  - unfold startMonitoring, DummyClipboard_startMonitoring. rewrite foldl_two.
    set (s0 := set_m_selectionData _ (set_m_clipboardData _ s)).
    assert (H0 : ∀ q, settled (deref q s0))
      by (intros []; [exact (Hs ptr_clipboardData) | exact (Hs ptr_selectionData)]).
    assert (Hbase : ∀ s p, (∀ q, settled (deref q s)) →
                           ∀ q, settled (deref q (startMonitoring_baseline rd s p))).
    { intros s' p Hs' q'. unfold startMonitoring_baseline.
      apply useNewClipboardData_settled, updateClipboardData_settled.
      specialize (Hs' q'). by destruct p, q'. }
    pose proof (Hbase _ ptr_selectionData (Hbase _ ptr_clipboardData H0) q) as H2.
    revert H2.
    generalize (startMonitoring_baseline rd
                  (startMonitoring_baseline rd s0 ptr_clipboardData) ptr_selectionData).
    intros s2 H2. by destruct q.
  - specialize (Hs q). by destruct m, q.
  - specialize (Hs q). unfold onChanged. destruct (negb _); [done|].
    destruct (mode =? QClipboard_Clipboard), (bool_decide _), (_ && _), q; done.
  - apply check_settled. specialize (Hs q). by destruct q.
  - specialize (Hs q). destruct p.
    + unfold clipboardEmitChange. apply useNewClipboardData_settled. by destruct q.
    + unfold selectionEmitChange. destruct (isSelectionIncomplete _ _).
      * destruct (negb _); by destruct q.
      * apply useNewClipboardData_settled. by destruct q.
Qed.

(** * Further properties of the monitor *)

(** ** The selection gate *)

(** X1.  [isSelectionIncomplete] answers true exactly when the platform is
    X11 and bit 8 (the first pointer button) or bit 0 (shift) of the queried
    state is set; every other bit of the state is ignored, and off X11 the
    answer is false whatever the state. *)
Theorem gate_reads_button1_and_shift (isPlatformX11 : bool) (xbutton_state : Z) :
  (isSelectionIncomplete isPlatformX11 xbutton_state = true ↔
   isPlatformX11 = true ∧
   (Z.testbit xbutton_state 8 = true ∨ Z.testbit xbutton_state 0 = true)) ∧
  isSelectionIncomplete false xbutton_state = false ∧
  (∀ other, Z.testbit other 8 = false → Z.testbit other 0 = false →
     isSelectionIncomplete isPlatformX11 (Z.lor xbutton_state other)
     = isSelectionIncomplete isPlatformX11 xbutton_state).
Proof.
  split; [|split].
  - rewrite isSelectionIncomplete_bits, andb_true_iff, orb_true_iff. done.
  - done.
  - intros other H8 H0. rewrite !isSelectionIncomplete_bits, !Z.lor_spec, H8, H0.
    by rewrite !orb_false_r.
Qed.

(** ** What every sequence of events keeps *)

Lemma run_snoc es e s : run (es ++ [e]) s = step e (run es s).
Proof. unfold run. by rewrite foldl_app. Qed.

Lemma run_settled es s :
  (∀ q, settled (deref q s)) → ∀ q, settled (deref q (run es s)).
Proof.
  induction es as [|e es IH] using rev_ind; intros Hs; [exact Hs|].
  rewrite run_snoc. by apply step_settled, IH.
Qed.

(** X2.  From a state within the bounds, every sequence of events ends
    within them: both retry counters between 0 and 3 and the interval of the
    shared timer between 0 and 1500 ms, so that the interval computed by the
    next [check], [interval * 2 + 50], is at most 3050. *)
Theorem counters_stay_bounded (es : list Event) (s : X11PlatformClipboard) :
  bounded s →
  bounded (run es s) ∧
  0 ≤ QTimer.interval (m_timerCheckAgain (run es s)) * 2 + minCheckAgainIntervalMs
    ≤ 3050.
Proof.
  intros Hb. pose proof (run_bounded es s Hb) as Hrun. split; [exact Hrun|].
  destruct Hrun as (_ & _ & Ht).
  unfold maxRetryCount, maxCheckAgainIntervalMs, minCheckAgainIntervalMs in *. lia.
Qed.

(** Three checks of the sample state with every read failing: the retry is
    scheduled at 1500 ms. *)
Lemma counters_stay_bounded_witness :
  bounded sample ∧
  QTimer.interval
    (m_timerCheckAgain
       (run [TimeoutCheckAgain failingRead; TimeoutCheckAgain failingRead;
             TimeoutCheckAgain failingRead] sample)) = 1500 ∧
  bounded (run [TimeoutCheckAgain failingRead; TimeoutCheckAgain failingRead;
                TimeoutCheckAgain failingRead] sample).
Proof.
  assert (Hb : bounded sample).
  { unfold bounded, maxRetryCount, maxCheckAgainIntervalMs. cbn. lia. }
  split; [exact Hb|]. split; [vm_compute; reflexivity|].
  exact (proj1 (counters_stay_bounded _ sample Hb)).
Defined.

(** X3.  If in both trackers a clear dirty flag means that the pending data
    is the published data, then the same holds after every sequence of
    events: what a poll stores as pending without marking the tracker dirty
    is equal to what is published. *)
Theorem clean_tracker_has_nothing_pending (es : list Event) (s : X11PlatformClipboard)
    (q : ClipboardDataPtr) :
  settled (m_clipboardData s) →
  settled (m_selectionData s) →
  ClipboardData.changed (deref q (run es s)) = false →
  ClipboardData.data (deref q (run es s)) = ClipboardData.newData (deref q (run es s)).
Proof.
  intros Hc Hs. apply run_settled. by intros [].
Qed.

(** After the baseline and a check that reads the same content again, the
    selection tracker of the sample is clean, and "b" is both published and
    pending. *)
Lemma clean_tracker_has_nothing_pending_witness :
  settled (m_clipboardData sample) ∧
  settled (m_selectionData sample) ∧
  ClipboardData.changed
    (deref ptr_selectionData
       (run [CallStartMonitoring "text/plain" ["text/plain"%string] sampleRead;
             TimeoutCheckAgain sampleRead] sample)) = false ∧
  ClipboardData.data
    (deref ptr_selectionData
       (run [CallStartMonitoring "text/plain" ["text/plain"%string] sampleRead;
             TimeoutCheckAgain sampleRead] sample))
  = ClipboardData.newData
      (deref ptr_selectionData
         (run [CallStartMonitoring "text/plain" ["text/plain"%string] sampleRead;
               TimeoutCheckAgain sampleRead] sample)).
Proof.
  assert (Hc : settled (m_clipboardData sample)) by (intros _; reflexivity).
  assert (Hs : settled (m_selectionData sample)) by (intros _; reflexivity).
  assert (Hclean : ClipboardData.changed
            (deref ptr_selectionData
               (run [CallStartMonitoring "text/plain" ["text/plain"%string] sampleRead;
                     TimeoutCheckAgain sampleRead] sample)) = false)
    by (vm_compute; reflexivity).
  split; [exact Hc|]. split; [exact Hs|]. split; [exact Hclean|].
  exact (clean_tracker_has_nothing_pending _ sample ptr_selectionData Hc Hs Hclean).
Defined.

Lemma updateClipboardData_armed p q rd s :
  armedOnlyIfDirty (deref q s) →
  armedOnlyIfDirty (deref q (updateClipboardData p rd s).2).
Proof.
  destruct (decide (q = p)) as [->|Hq].
  - unfold armedOnlyIfDirty, updateClipboardData. intros Hinv.
    destruct (negb _); [done|].
    destruct (rd _) as [d|]; cbn zeta.
    + set (cd2 := if _ || _ then _ else _).
      assert (Hcd2 : ClipboardData.timerEmitChange cd2
                     = ClipboardData.timerEmitChange (deref p s) ∧
                     ClipboardData.changed cd2 = ClipboardData.changed (deref p s)).
      { unfold cd2. by destruct (_ || _). }
      destruct Hcd2 as [Htimer Hchanged].
      destruct (ClipboardData.changed cd2) eqn:Hc; cbn [negb snd].
      * rewrite deref_assign_same. cbn. by rewrite Hc.
      * case_bool_decide as Heq; cbn [snd]; rewrite deref_assign_same; [|by cbn].
        rewrite Htimer, Hc. intros Hactive. apply Hinv in Hactive. congruence.
    + cbn [snd]. destruct (_ <? _); by destruct p.
  - by rewrite (proj1 (updateClipboardData_frame p rd s) q Hq).
Qed.

Lemma useNewClipboardData_armed p q s :
  armedOnlyIfDirty (deref q s) → armedOnlyIfDirty (deref q (useNewClipboardData p s)).
Proof. destruct p, q; unfold armedOnlyIfDirty; cbn; done. Qed.

Lemma check_armed rd s q : armedOnlyIfDirty (deref q (check rd s)).
Proof.
  rewrite check_trackers. unfold check_changed.
  assert (H0 : armedOnlyIfDirty (deref q (stopTimers s))) by (by destruct q).
  pose proof (updateClipboardData_armed ptr_clipboardData q rd _ H0) as H1.
  destruct (updateClipboardData ptr_clipboardData rd (stopTimers s)) as [[] s1];
    cbn [snd] in *; [done|].
  by apply updateClipboardData_armed.
Qed.

Lemma step_armed e s :
  (∀ q, armedOnlyIfDirty (deref q s)) → ∀ q, armedOnlyIfDirty (deref q (step e s)).
Proof.
  intros Hs q. destruct e as [mt fs rd|m b|mode title|rd|p x11 st]; cbn [step].
  - unfold startMonitoring, DummyClipboard_startMonitoring. rewrite foldl_two.
    set (s0 := set_m_selectionData _ (set_m_clipboardData _ s)).
    assert (H0 : ∀ q, armedOnlyIfDirty (deref q s0))
      by (intros []; [exact (Hs ptr_clipboardData) | exact (Hs ptr_selectionData)]).
    assert (Hbase : ∀ s p, (∀ q, armedOnlyIfDirty (deref q s)) →
                           ∀ q, armedOnlyIfDirty (deref q (startMonitoring_baseline rd s p))).
    { intros s' p Hs' q'. unfold startMonitoring_baseline.
      apply useNewClipboardData_armed, updateClipboardData_armed.
      specialize (Hs' q'). by destruct p, q'. }
    pose proof (Hbase _ ptr_selectionData (Hbase _ ptr_clipboardData H0) q) as H2.
    revert H2.
    generalize (startMonitoring_baseline rd
                  (startMonitoring_baseline rd s0 ptr_clipboardData) ptr_selectionData).
    intros s2 H2. by destruct q.
  - specialize (Hs q). by destruct m, q.
  - specialize (Hs q). unfold onChanged. destruct (negb _); [done|].
    destruct (mode =? QClipboard_Clipboard), (bool_decide _), (_ && _), q; done.
  - apply check_armed.
  - specialize (Hs q). destruct p.
    + unfold clipboardEmitChange. apply useNewClipboardData_armed. by destruct q.
    + unfold selectionEmitChange. destruct (isSelectionIncomplete _ _).
      * destruct (negb _); by destruct q.
      * apply useNewClipboardData_armed. by destruct q.
Qed.

Lemma run_armed es s :
  (∀ q, armedOnlyIfDirty (deref q s)) → ∀ q, armedOnlyIfDirty (deref q (run es s)).
Proof.
  induction es as [|e es IH] using rev_ind; intros Hs; [exact Hs|].
  rewrite run_snoc. by apply step_armed, IH.
Qed.

(** X4.  A debounce timer runs only for a tracker marked dirty: if that
    holds of both trackers, then after every sequence of events a debounce
    timeout that the event loop can deliver finds its tracker dirty. *)
Theorem debounce_timer_runs_only_when_dirty (es : list Event)
    (s : X11PlatformClipboard) (p : ClipboardDataPtr)
    (isPlatformX11 : bool) (xbutton_state : Z) :
  armedOnlyIfDirty (m_clipboardData s) →
  armedOnlyIfDirty (m_selectionData s) →
  deliverable (TimeoutEmitChange p isPlatformX11 xbutton_state) (run es s) = true →
  ClipboardData.changed (deref p (run es s)) = true.
Proof.
  intros Hc Hs Hdeliverable.
  assert (Hinv : ∀ q, armedOnlyIfDirty (deref q s)) by (by intros []).
  by apply run_armed.
Qed.

(** In the sample state the check finds "a": the clipboard's debounce
    timeout becomes deliverable, and the tracker is dirty. *)
Lemma debounce_timer_runs_only_when_dirty_witness :
  armedOnlyIfDirty (m_clipboardData sample) ∧
  armedOnlyIfDirty (m_selectionData sample) ∧
  deliverable (TimeoutEmitChange ptr_clipboardData true 0)
    (run [TimeoutCheckAgain sampleRead] sample) = true ∧
  ClipboardData.changed (deref ptr_clipboardData (run [TimeoutCheckAgain sampleRead] sample))
  = true.
Proof.
  assert (Hc : armedOnlyIfDirty (m_clipboardData sample)) by (intros H; discriminate H).
  assert (Hs : armedOnlyIfDirty (m_selectionData sample)) by (intros H; discriminate H).
  assert (Hd : deliverable (TimeoutEmitChange ptr_clipboardData true 0)
                 (run [TimeoutCheckAgain sampleRead] sample) = true)
    by (vm_compute; reflexivity).
  split; [exact Hc|]. split; [exact Hs|]. split; [exact Hd|].
  exact (debounce_timer_runs_only_when_dirty [TimeoutCheckAgain sampleRead]
           sample ptr_clipboardData true 0 Hc Hs Hd).
Defined.

(** ** Disabled trackers *)

Lemma updateClipboardData_same_read p rd rd' s :
  (ClipboardData.enabled (deref p s) = true →
   rd (ClipboardData.mode (deref p s)) = rd' (ClipboardData.mode (deref p s))) →
  updateClipboardData p rd s = updateClipboardData p rd' s.
Proof.
  intros Hsame. unfold updateClipboardData.
  destruct (ClipboardData.enabled (deref p s)); cbn [negb]; [|done].
  by rewrite (Hsame eq_refl).
Qed.

Lemma check_same_read rd rd' s :
  sameEnabledReads rd rd' s → check rd s = check rd' s.
Proof.
  intros Hsame. unfold check, check_changed.
  rewrite (updateClipboardData_same_read ptr_clipboardData rd rd' (stopTimers s))
    by exact (Hsame ptr_clipboardData).
  pose proof (updateClipboardData_frame ptr_clipboardData rd' (stopTimers s))
    as (Hother & _).
  specialize (Hother ptr_selectionData ltac:(done)).
  destruct (updateClipboardData ptr_clipboardData rd' (stopTimers s)) as [[] s1];
    cbn [snd] in Hother; [done|].
  rewrite (updateClipboardData_same_read ptr_selectionData rd rd' s1); [done|].
  rewrite Hother. exact (Hsame ptr_selectionData).
Qed.

Lemma startMonitoring_baseline_same_read rd rd' s p :
  (ClipboardData.enabled (deref p s) = true →
   rd (ClipboardData.mode (deref p s)) = rd' (ClipboardData.mode (deref p s))) →
  startMonitoring_baseline rd s p = startMonitoring_baseline rd' s p.
Proof.
  intros Hsame. unfold startMonitoring_baseline.
  rewrite (updateClipboardData_same_read p rd rd'); [done|].
  rewrite !deref_assign_same. exact Hsame.
Qed.

Lemma startMonitoring_baseline_enabled rd s p q :
  ClipboardData.enabled (deref q (startMonitoring_baseline rd s p))
  = ClipboardData.enabled (deref q s).
Proof.
  unfold startMonitoring_baseline.
  transitivity (ClipboardData.enabled
                  (deref q (updateClipboardData p rd
                     (assign p (ClipboardData.set_newOwner []
                        (deref p (assign p (ClipboardData.set_owner [] (deref p s)) s)))
                        (assign p (ClipboardData.set_owner [] (deref p s)) s))).2)).
  { by destruct p, q. }
  destruct (decide (q = p)) as [->|Hq].
  - rewrite (proj1 (proj2 (proj2 (proj2 (updateClipboardData_frame p rd _))))).
    by rewrite !deref_assign_same.
  - rewrite (proj1 (updateClipboardData_frame p rd _) q Hq). by destruct p, q.
Qed.

(** X5.  The buffer of a disabled tracker is never read: two platform reads
    that agree on the buffers of the enabled trackers take [check] and
    [startMonitoring] to the same state, whatever they would have returned
    for a disabled tracker's buffer. *)
Theorem disabled_buffer_is_never_read (rd rd' : PlatformRead) (mimeText : string)
    (formats : QStringList) (s : X11PlatformClipboard) :
  sameEnabledReads rd rd' s →
  step (TimeoutCheckAgain rd) s = step (TimeoutCheckAgain rd') s ∧
  step (CallStartMonitoring mimeText formats rd) s
  = step (CallStartMonitoring mimeText formats rd') s.
Proof.
  intros Hsame. split; cbn [step].
  - apply check_same_read.
    intros []; [exact (Hsame ptr_clipboardData) | exact (Hsame ptr_selectionData)].
  - unfold startMonitoring. rewrite !foldl_two.
    set (s0 := set_m_selectionData _ (set_m_clipboardData _ s)).
    rewrite (startMonitoring_baseline_same_read rd rd' s0 ptr_clipboardData)
      by exact (Hsame ptr_clipboardData).
    rewrite (startMonitoring_baseline_same_read rd rd' _ ptr_selectionData); [done|].
    rewrite startMonitoring_baseline_enabled, startMonitoring_baseline_mode.
    exact (Hsame ptr_selectionData).
Qed.

(** With the selection tracker switched off, a check gives the same state
    whether the selection holds "b" or has no owner. *)
Lemma disabled_buffer_is_never_read_witness :
  sampleRead Selection ≠ clipboardOnlyRead Selection ∧
  sameEnabledReads sampleRead clipboardOnlyRead sampleSelectionOff ∧
  step (TimeoutCheckAgain sampleRead) sampleSelectionOff
  = step (TimeoutCheckAgain clipboardOnlyRead) sampleSelectionOff.
Proof.
  assert (Hsame : sameEnabledReads sampleRead clipboardOnlyRead sampleSelectionOff).
  { intros [] Hon; [reflexivity | discriminate Hon]. }
  split; [discriminate|]. split; [exact Hsame|].
  exact (proj1 (disabled_buffer_is_never_read sampleRead clipboardOnlyRead
                  "text/plain" [] sampleSelectionOff Hsame)).
Defined.

(** ** What only a publication does *)

Lemma updateClipboardData_keeps_dirty p q rd s :
  ClipboardData.changed (deref q s) = true →
  ClipboardData.changed (deref q (updateClipboardData p rd s).2) = true.
Proof.
  destruct (decide (q = p)) as [->|Hq].
  - unfold updateClipboardData. intros Hdirty.
    destruct (negb _); [done|].
    destruct (rd _) as [d|]; cbn zeta.
    + set (cd2 := if _ || _ then _ else _).
      assert (Hcd2 : ClipboardData.changed cd2 = true).
      { unfold cd2. by destruct (_ || _). }
      rewrite Hcd2. cbn [negb snd]. by rewrite deref_assign_same.
    + cbn [snd]. destruct (_ <? _); by destruct p.
  - by rewrite (proj1 (updateClipboardData_frame p rd s) q Hq).
Qed.

Lemma updateClipboardData_published p q rd s :
  ClipboardData.data (deref q (updateClipboardData p rd s).2)
  = ClipboardData.data (deref q s) ∧
  ClipboardData.owner (deref q (updateClipboardData p rd s).2)
  = ClipboardData.owner (deref q s).
Proof.
  destruct (decide (q = p)) as [->|Hq].
  - split; apply updateClipboardData_frame.
  - by rewrite (proj1 (updateClipboardData_frame p rd s) q Hq).
Qed.

Lemma check_published rd s q :
  ClipboardData.data (deref q (check rd s)) = ClipboardData.data (deref q s) ∧
  ClipboardData.owner (deref q (check rd s)) = ClipboardData.owner (deref q s) ∧
  (ClipboardData.changed (deref q s) = true →
   ClipboardData.changed (deref q (check rd s)) = true).
Proof.
  rewrite check_trackers. unfold check_changed.
  assert (H0 : ClipboardData.data (deref q (stopTimers s)) = ClipboardData.data (deref q s) ∧
               ClipboardData.owner (deref q (stopTimers s)) = ClipboardData.owner (deref q s) ∧
               ClipboardData.changed (deref q (stopTimers s))
               = ClipboardData.changed (deref q s)) by (by destruct q).
  destruct H0 as (Hd0 & Ho0 & Hc0). rewrite <- Hd0, <- Ho0, <- Hc0.
  pose proof (updateClipboardData_published ptr_clipboardData q rd (stopTimers s))
    as [Hd1 Ho1].
  pose proof (updateClipboardData_keeps_dirty ptr_clipboardData q rd (stopTimers s))
    as Hc1.
  destruct (updateClipboardData ptr_clipboardData rd (stopTimers s)) as [[] s1];
    cbn [snd] in *; [done|].
  pose proof (updateClipboardData_published ptr_selectionData q rd s1) as [Hd2 Ho2].
  pose proof (updateClipboardData_keeps_dirty ptr_selectionData q rd s1) as Hc2.
  rewrite Hd2, Ho2. split; [done|]. split; [done|]. intros Hdirty. by apply Hc2, Hc1.
Qed.

(** X6.  Only a publication overwrites what is published or clears the
    dirty flag.  An event that does not publish (a call of
    [setMonitoringEnabled], an owner change, a timeout of the shared timer, a
    selection timeout that the gate vetoes) leaves the published data and
    owner of both trackers as they are, leaves a dirty tracker dirty, and
    emits nothing. *)
Theorem published_changes_only_by_publication (e : Event) (s : X11PlatformClipboard)
    (q : ClipboardDataPtr) :
  publishes e = false →
  ClipboardData.data (deref q (step e s)) = ClipboardData.data (deref q s) ∧
  ClipboardData.owner (deref q (step e s)) = ClipboardData.owner (deref q s) ∧
  (ClipboardData.changed (deref q s) = true →
   ClipboardData.changed (deref q (step e s)) = true) ∧
  emitted (step e s) = emitted s.
Proof.
  intros Hquiet.
  destruct e as [mt fs rd|m b|mode title|rd|[] x11 st]; cbn [publishes] in Hquiet;
    try discriminate Hquiet; cbn [step].
  - rewrite setMonitoringEnabled_emitted. by destruct m, q.
  - rewrite onChanged_emitted. unfold onChanged. destruct (negb _); [done|].
    destruct (mode =? QClipboard_Clipboard), (bool_decide _), (_ && _), q; done.
  - rewrite check_emitted.
    destruct (check_published rd
                (set_m_timerCheckAgain (QTimer.stop (m_timerCheckAgain s)) s) q)
      as (Hd & Ho & Hc).
    rewrite Hd, Ho. split; [by destruct q|]. split; [by destruct q|].
    split; [|done]. intros Hdirty. apply Hc. by destruct q.
  - apply negb_false_iff in Hquiet. unfold selectionEmitChange. rewrite Hquiet.
    destruct (negb _); by destruct q.
Qed.

(** The clipboard tracker of the sample state is dirty with "a" pending when
    a check fails to read both buffers: it stays dirty and nothing is
    published. *)
Lemma published_changes_only_by_publication_witness :
  publishes (TimeoutCheckAgain failingRead) = false ∧
  ClipboardData.changed (deref ptr_clipboardData (check sampleRead sample)) = true ∧
  ClipboardData.changed
    (deref ptr_clipboardData
       (step (TimeoutCheckAgain failingRead) (check sampleRead sample))) = true ∧
  ClipboardData.data
    (deref ptr_clipboardData
       (step (TimeoutCheckAgain failingRead) (check sampleRead sample)))
  = ClipboardData.data (deref ptr_clipboardData (check sampleRead sample)).
Proof.
  assert (Hdirty : ClipboardData.changed
            (deref ptr_clipboardData (check sampleRead sample)) = true)
    by (vm_compute; reflexivity).
  destruct (published_changes_only_by_publication (TimeoutCheckAgain failingRead)
              (check sampleRead sample) ptr_clipboardData eq_refl)
    as (Hdata & _ & Hkeeps & _).
  split; [reflexivity|]. split; [exact Hdirty|].
  split; [exact (Hkeeps Hdirty) | exact Hdata].
Defined.

(** ** The subscribed formats *)

Lemma updateClipboardData_formats p q rd s :
  ClipboardData.formats (deref q (updateClipboardData p rd s).2)
  = ClipboardData.formats (deref q s).
Proof.
  destruct (decide (q = p)) as [->|Hq].
  - apply updateClipboardData_frame.
  - by rewrite (proj1 (updateClipboardData_frame p rd s) q Hq).
Qed.

Lemma startMonitoring_baseline_formats rd s p q :
  ClipboardData.formats (deref q (startMonitoring_baseline rd s p))
  = ClipboardData.formats (deref q s).
Proof.
  unfold startMonitoring_baseline.
  transitivity (ClipboardData.formats
                  (deref q (updateClipboardData p rd
                     (assign p (ClipboardData.set_newOwner []
                        (deref p (assign p (ClipboardData.set_owner [] (deref p s)) s)))
                        (assign p (ClipboardData.set_owner [] (deref p s)) s))).2)).
  { by destruct p, q. }
  rewrite updateClipboardData_formats. by destruct p, q.
Qed.

Lemma check_formats rd s q :
  ClipboardData.formats (deref q (check rd s)) = ClipboardData.formats (deref q s).
Proof.
  rewrite check_trackers. unfold check_changed.
  pose proof (updateClipboardData_formats ptr_clipboardData q rd (stopTimers s)) as H1.
  destruct (updateClipboardData ptr_clipboardData rd (stopTimers s)) as [[] s1];
    cbn [snd] in *.
  - rewrite H1. by destruct q.
  - rewrite updateClipboardData_formats, H1. by destruct q.
Qed.

(** The subscription of each tracker after an event. *)
Lemma step_formats e s q :
  ClipboardData.formats (deref q (step e s))
  = match e, q with
    | CallStartMonitoring _ formats _, ptr_clipboardData => formats
    | CallStartMonitoring mimeText _ _, ptr_selectionData =>
        ClipboardData.formats (m_selectionData s) ++ [mimeText]
    | _, _ => ClipboardData.formats (deref q s)
    end.
Proof.
  destruct e as [mt fs rd|m b|mode title|rd|p x11 st]; cbn [step].
  - unfold startMonitoring, DummyClipboard_startMonitoring. rewrite foldl_two.
    set (s0 := set_m_selectionData _ (set_m_clipboardData _ s)).
    assert (H2 : ClipboardData.formats
                   (deref q (startMonitoring_baseline rd
                               (startMonitoring_baseline rd s0 ptr_clipboardData)
                               ptr_selectionData))
                 = ClipboardData.formats (deref q s0))
      by (by rewrite !startMonitoring_baseline_formats).
    revert H2.
    generalize (startMonitoring_baseline rd
                  (startMonitoring_baseline rd s0 ptr_clipboardData) ptr_selectionData).
    intros s2 H2.
    transitivity (ClipboardData.formats (deref q s2)); [by destruct q|].
    rewrite H2. by destruct q.
  - by destruct m, q.
  - unfold onChanged. destruct (negb _); [by destruct q|].
    destruct (mode =? QClipboard_Clipboard), (bool_decide _), (_ && _), q; done.
  - rewrite check_formats. by destruct q.
  - destruct p.
    + by destruct q.
    + unfold selectionEmitChange. destruct (isSelectionIncomplete _ _).
      * destruct (negb _); by destruct q.
      * by destruct q.
Qed.

Lemma step_formats_of e s :
  ClipboardData.formats (m_clipboardData (step e s))
  = match e with
    | CallStartMonitoring _ formats _ => formats
    | _ => ClipboardData.formats (m_clipboardData s)
    end ∧
  ClipboardData.formats (m_selectionData (step e s))
  = match e with
    | CallStartMonitoring mimeText _ _ =>
        ClipboardData.formats (m_selectionData s) ++ [mimeText]
    | _ => ClipboardData.formats (m_selectionData s)
    end.
Proof.
  split.
  - exact (step_formats e s ptr_clipboardData).
  - exact (step_formats e s ptr_selectionData).
Qed.

Lemma run_selection_formats es s :
  ∃ added,
    ClipboardData.formats (m_selectionData (run es s))
    = ClipboardData.formats (m_selectionData s) ++ added.
Proof.
  induction es as [|e es IH] using rev_ind; [exists []; by rewrite app_nil_r|].
  destruct IH as [added IH]. rewrite run_snoc.
  rewrite (proj2 (step_formats_of e (run es s))).
  destruct e; try (by exists added).
  exists (added ++ [mimeText]). by rewrite IH, app_assoc.
Qed.

(** X7.  [startMonitoring] replaces the clipboard tracker's subscription by
    its argument and appends the plain-text format to the selection
    tracker's; no other event changes a subscription.  So after any sequence
    of events the selection tracker's subscription is the one it started
    with, extended at the end, and once [startMonitoring] has run it
    contains the plain-text format for good. *)
Theorem selection_subscription_only_grows (es : list Event) (mimeText : string)
    (formats : QStringList) (rd : PlatformRead) (s : X11PlatformClipboard) :
  ClipboardData.formats
    (m_clipboardData (step (CallStartMonitoring mimeText formats rd) s)) = formats ∧
  ClipboardData.formats
    (m_selectionData (step (CallStartMonitoring mimeText formats rd) s))
  = ClipboardData.formats (m_selectionData s) ++ [mimeText] ∧
  (∀ e q, (∀ mt fs r, e ≠ CallStartMonitoring mt fs r) →
     ClipboardData.formats (deref q (step e s)) = ClipboardData.formats (deref q s)) ∧
  (∃ added,
     ClipboardData.formats (m_selectionData (run es s))
     = ClipboardData.formats (m_selectionData s) ++ added) ∧
  mimeText ∈ ClipboardData.formats
               (m_selectionData (run es (step (CallStartMonitoring mimeText formats rd) s))).
Proof.
  destruct (step_formats_of (CallStartMonitoring mimeText formats rd) s)
    as [Hclipboard Hselection].
  split; [exact Hclipboard|]. split; [exact Hselection|].
  split; [|split].
  - intros e q Hother. rewrite step_formats.
    destruct e; try done. by destruct (Hother mimeText0 formats0 platformClipboard).
  - apply run_selection_formats.
  - revert Hselection. clear Hclipboard.
    generalize (step (CallStartMonitoring mimeText formats rd) s).
    intros s1 Hselection.
    destruct (run_selection_formats es s1) as [added Hrun].
    rewrite Hrun, Hselection. set_solver.
Qed.

(** ** The time stamp and the pending data *)

(** What a successful read of an enabled tracker stores: the data is cloned
    when the read has no time stamp or another one than the tracker holds,
    and is kept otherwise. *)
Lemma updateClipboardData_stores p rd d s :
  ClipboardData.enabled (deref p s) = true →
  rd (ClipboardData.mode (deref p s)) = Some d →
  ClipboardData.retry (deref p (updateClipboardData p rd s).2) = 0 ∧
  ClipboardData.newDataTimestamp (deref p (updateClipboardData p rd s).2)
  = QMimeData_data d "TIMESTAMP" ∧
  ClipboardData.newData (deref p (updateClipboardData p rd s).2)
  = (if isEmpty (QMimeData_data d "TIMESTAMP")
        || negb (bool_decide (ClipboardData.newDataTimestamp (deref p s)
                              = QMimeData_data d "TIMESTAMP"))
     then cloneData d (ClipboardData.formats (deref p s))
     else ClipboardData.newData (deref p s)).
Proof.
  intros Hon Hread. unfold updateClipboardData. rewrite Hon, Hread.
  cbn [negb]. cbn zeta.
  set (cd2 := if _ || _ then _ else _).
  assert (Hcd2 : ClipboardData.retry cd2 = 0 ∧
                 ClipboardData.newDataTimestamp cd2 = QMimeData_data d "TIMESTAMP" ∧
                 ClipboardData.newData cd2
                 = (if isEmpty (QMimeData_data d "TIMESTAMP")
                       || negb (bool_decide (ClipboardData.newDataTimestamp (deref p s)
                                             = QMimeData_data d "TIMESTAMP"))
                    then cloneData d (ClipboardData.formats (deref p s))
                    else ClipboardData.newData (deref p s))).
  { unfold cd2. cbn [ClipboardData.newDataTimestamp ClipboardData.set_retry
                     ClipboardData.formats].
    destruct (isEmpty _); cbn [orb]; [by cbn|].
    destruct (bool_decide _) eqn:Hts; cbn [negb]; [|by cbn].
    apply bool_decide_eq_true in Hts. by cbn. }
  destruct Hcd2 as (Hretry & Hstamp & Hnew).
  destruct (if negb _ then _ else _) as [cd4|] eqn:Hcd3; cbn [snd];
    rewrite deref_assign_same; [|done].
  destruct (negb (ClipboardData.changed cd2)).
  - case_bool_decide; [done|]. by simplify_eq.
  - by simplify_eq.
Qed.

Lemma updateClipboardData_result p rd d s :
  ClipboardData.enabled (deref p s) = true →
  rd (ClipboardData.mode (deref p s)) = Some d →
  (updateClipboardData p rd s).1
  = ClipboardData.changed (deref p s)
    || negb (bool_decide (ClipboardData.data (deref p s)
                          = ClipboardData.newData (deref p (updateClipboardData p rd s).2))).
Proof.
  intros Hon Hread. unfold updateClipboardData. rewrite Hon, Hread.
  cbn [negb]. cbn zeta.
  set (cd2 := if _ || _ then _ else _).
  assert (Hcd2 : ClipboardData.changed cd2 = ClipboardData.changed (deref p s) ∧
                 ClipboardData.data cd2 = ClipboardData.data (deref p s)).
  { unfold cd2. by destruct (_ || _). }
  destruct Hcd2 as [Hchanged Hdata]. rewrite <- Hchanged, <- Hdata.
  destruct (ClipboardData.changed cd2); cbn [negb orb fst snd]; [done|].
  case_bool_decide as Heq; cbn [fst snd]; rewrite deref_assign_same; cbn.
  - by rewrite bool_decide_eq_true_2.
  - by rewrite bool_decide_eq_false_2.
Qed.

(** X8.  A successful read of an enabled tracker replaces the pending data
    by what [cloneData] keeps of the read only if the read has no time stamp
    or a time stamp other than the stored one; the poll then reports a change
    iff the tracker is dirty or the pending data differs from the published
    data.  A read under the stored, non-empty time stamp leaves the pending
    data alone whatever it contains: a clean tracker with nothing pending
    reports no change and starts no timer. *)
Theorem same_time_stamp_is_not_cloned (p : ClipboardDataPtr) (rd : PlatformRead)
    (d : QMimeData) (s : X11PlatformClipboard) :
  ClipboardData.enabled (deref p s) = true →
  rd (ClipboardData.mode (deref p s)) = Some d →
  ClipboardData.newData (deref p (updateClipboardData p rd s).2)
  = (if isEmpty (QMimeData_data d "TIMESTAMP")
        || negb (bool_decide (ClipboardData.newDataTimestamp (deref p s)
                              = QMimeData_data d "TIMESTAMP"))
     then cloneData d (ClipboardData.formats (deref p s))
     else ClipboardData.newData (deref p s)) ∧
  (updateClipboardData p rd s).1
  = ClipboardData.changed (deref p s)
    || negb (bool_decide (ClipboardData.data (deref p s)
                          = ClipboardData.newData (deref p (updateClipboardData p rd s).2))) ∧
  (isEmpty (QMimeData_data d "TIMESTAMP") = false →
   ClipboardData.newDataTimestamp (deref p s) = QMimeData_data d "TIMESTAMP" →
   ClipboardData.changed (deref p s) = false →
   ClipboardData.data (deref p s) = ClipboardData.newData (deref p s) →
   (updateClipboardData p rd s).1 = false ∧
   ClipboardData.newData (deref p (updateClipboardData p rd s).2)
   = ClipboardData.newData (deref p s) ∧
   ClipboardData.timerEmitChange (deref p (updateClipboardData p rd s).2)
   = ClipboardData.timerEmitChange (deref p s)).
Proof.
  intros Hon Hread.
  destruct (updateClipboardData_stores p rd d s Hon Hread) as (_ & _ & Hnew).
  pose proof (updateClipboardData_result p rd d s Hon Hread) as Hres.
  split; [exact Hnew|]. split; [exact Hres|].
  intros Hstamped Hsame Hclean Hsettled.
  assert (Hkept : ClipboardData.newData (deref p (updateClipboardData p rd s).2)
                  = ClipboardData.newData (deref p s)).
  { rewrite Hnew, Hstamped. cbn [orb]. by rewrite bool_decide_eq_true_2. }
  assert (Hfalse : (updateClipboardData p rd s).1 = false).
  { rewrite Hres, Hclean, Hkept. cbn [orb]. by rewrite bool_decide_eq_true_2. }
  split; [exact Hfalse|]. split; [exact Hkept|].
  revert Hfalse. unfold updateClipboardData. rewrite Hon, Hread. cbn [negb]. cbn zeta.
  set (cd2 := if _ || _ then _ else _).
  assert (Htimer : ClipboardData.timerEmitChange cd2
                   = ClipboardData.timerEmitChange (deref p s)).
  { unfold cd2. by destruct (_ || _). }
  destruct (if negb _ then _ else _); cbn [fst snd]; [done|].
  intros _. by rewrite deref_assign_same.
Qed.

(** The clipboard of the sample has published "a" under the time stamp
    "100"; a read of "z" under the same time stamp is not noticed. *)
Lemma same_time_stamp_is_not_cloned_witness :
  cloneData staleStampRead ["text/plain"%string]
  ≠ ClipboardData.data (deref ptr_clipboardData samplePublished) ∧
  (updateClipboardData ptr_clipboardData (λ _, Some staleStampRead) samplePublished).1
  = false.
Proof.
  split.
  { intros Heq. apply (f_equal (λ m : QVariantMap, m !! "text/plain"%string)) in Heq.
    vm_compute in Heq. discriminate Heq. }
  destruct (same_time_stamp_is_not_cloned ptr_clipboardData (λ _, Some staleStampRead)
              staleStampRead samplePublished) as (_ & _ & Hstale);
    [vm_compute; reflexivity | reflexivity |].
  destruct Hstale as (Hres & _);
    [vm_compute; reflexivity | vm_compute; reflexivity | vm_compute; reflexivity
    | vm_compute; reflexivity | exact Hres].
Defined.

(** ** The baseline of [startMonitoring] *)

Lemma startMonitoring_baseline_other rd s p q :
  q ≠ p → deref q (startMonitoring_baseline rd s p) = deref q s.
Proof.
  intros Hq. unfold startMonitoring_baseline.
  rewrite useNewClipboardData_other by done.
  rewrite (proj1 (updateClipboardData_frame p rd _) q Hq).
  rewrite !deref_assign_other; done.
Qed.

(** The tracker [p] after its baseline, in terms of the poll that the
    baseline runs on the tracker with its owners cleared. *)
Lemma startMonitoring_baseline_self rd s p :
  ∃ s1, deref p s1
        = ClipboardData.set_newOwner [] (ClipboardData.set_owner [] (deref p s)) ∧
        deref p (startMonitoring_baseline rd s p)
        = ClipboardData.set_timerEmitChange
            (QTimer.stop
               (ClipboardData.timerEmitChange (deref p (updateClipboardData p rd s1).2)))
            (ClipboardData.set_changed false
               (ClipboardData.set_owner []
                  (ClipboardData.set_data
                     (ClipboardData.newData (deref p (updateClipboardData p rd s1).2))
                     (deref p (updateClipboardData p rd s1).2)))).
Proof.
  unfold startMonitoring_baseline.
  set (s1 := assign p (ClipboardData.set_newOwner [] _) _).
  exists s1. split.
  - unfold s1. by rewrite !deref_assign_same.
  - rewrite useNewClipboardData_tracker.
    assert (Hcleared : ClipboardData.newOwner (deref p (updateClipboardData p rd s1).2)
                       = []).
    { rewrite (proj2 (proj2 (proj2 (proj2 (proj2 (proj2
                (updateClipboardData_frame p rd s1))))))).
      unfold s1. by rewrite !deref_assign_same. }
    by rewrite Hcleared.
Qed.

(** What [startMonitoring] makes of a tracker, given what its baseline made
    of it. *)
Lemma startMonitoring_tracker mimeText formats rd s q :
  ∃ s0, deref q s0
        = ClipboardData.set_formats
            (match q with
             | ptr_clipboardData => formats
             | ptr_selectionData => ClipboardData.formats (m_selectionData s) ++ [mimeText]
             end) (deref q s) ∧
        deref q (startMonitoring mimeText formats rd s)
        = ClipboardData.set_timerEmitChange
            (initSingleShotTimer 0
               (ClipboardData.timerEmitChange (deref q (startMonitoring_baseline rd s0 q))))
            (deref q (startMonitoring_baseline rd s0 q)) ∧
        QTimer.interval (m_timerCheckAgain (startMonitoring mimeText formats rd s)) = 0.
Proof.
  unfold startMonitoring, DummyClipboard_startMonitoring. rewrite foldl_two.
  set (s0 := set_m_selectionData _ (set_m_clipboardData _ s)).
  destruct q.
  - exists s0. split; [done|].
    pose proof (startMonitoring_baseline_other rd
                  (startMonitoring_baseline rd s0 ptr_clipboardData)
                  ptr_selectionData ptr_clipboardData ltac:(done)) as Hother.
    revert Hother.
    generalize (startMonitoring_baseline rd
                  (startMonitoring_baseline rd s0 ptr_clipboardData) ptr_selectionData).
    generalize (startMonitoring_baseline rd s0 ptr_clipboardData).
    intros b1 b2 Hother. cbn [deref] in *. by rewrite <- Hother.
  - exists (startMonitoring_baseline rd s0 ptr_clipboardData). split.
    + by rewrite startMonitoring_baseline_other.
    + generalize (startMonitoring_baseline rd
                    (startMonitoring_baseline rd s0 ptr_clipboardData) ptr_selectionData).
      by intros b2.
Qed.

(** X9.  When [startMonitoring] returns, each tracker is clean, its pending
    data and owner are published, both owners are empty, its debounce timer
    is stopped with interval 0, and the interval of the shared timer is 0;
    the enabled flag is as before.  For an enabled tracker whose baseline
    read succeeds without a time stamp, or with another one than the tracker
    held, what is published is what [cloneData] keeps of the read for the new
    subscription. *)
Theorem startMonitoring_establishes_baseline (mimeText : string) (formats : QStringList)
    (rd : PlatformRead) (s : X11PlatformClipboard) (q : ClipboardDataPtr) :
  ClipboardData.changed (deref q (startMonitoring mimeText formats rd s)) = false ∧
  ClipboardData.data (deref q (startMonitoring mimeText formats rd s))
  = ClipboardData.newData (deref q (startMonitoring mimeText formats rd s)) ∧
  ClipboardData.owner (deref q (startMonitoring mimeText formats rd s)) = [] ∧
  ClipboardData.newOwner (deref q (startMonitoring mimeText formats rd s)) = [] ∧
  ClipboardData.timerEmitChange (deref q (startMonitoring mimeText formats rd s))
  = QTimer.mk 0 false ∧
  QTimer.interval (m_timerCheckAgain (startMonitoring mimeText formats rd s)) = 0 ∧
  ClipboardData.enabled (deref q (startMonitoring mimeText formats rd s))
  = ClipboardData.enabled (deref q s) ∧
  (∀ d, ClipboardData.enabled (deref q s) = true →
        rd (ClipboardData.mode (deref q s)) = Some d →
        isEmpty (QMimeData_data d "TIMESTAMP")
        || negb (bool_decide (ClipboardData.newDataTimestamp (deref q s)
                              = QMimeData_data d "TIMESTAMP")) = true →
        ClipboardData.data (deref q (startMonitoring mimeText formats rd s))
        = cloneData d
            (ClipboardData.formats (deref q (startMonitoring mimeText formats rd s)))).
Proof.
  destruct (startMonitoring_tracker mimeText formats rd s q) as (s0 & Hs0 & -> & ->).
  destruct (startMonitoring_baseline_self rd s0 q) as (s1 & Hs1 & ->).
  rewrite Hs0 in Hs1. clear s0 Hs0.
  pose proof (updateClipboardData_frame q rd s1)
    as (_ & Hmode & Hformats & Henabled & _ & _ & HnewOwner).
  pose proof (λ d, updateClipboardData_stores q rd d s1) as Hstores.
  revert Hmode Hformats Henabled HnewOwner Hstores.
  generalize (deref q (updateClipboardData q rd s1).2).
  rewrite Hs1. cbn. intros c Hmode Hformats Henabled HnewOwner Hstores.
  split; [done|]. split; [done|]. split; [done|]. split; [done|]. split; [done|].
  split; [done|]. split; [done|].
  intros d Hon Hread Hfresh.
  destruct (Hstores d Hon Hread) as (_ & _ & Hnew).
  rewrite Hfresh in Hnew. by rewrite Hnew, Hformats.
Qed.

(** The published data of the sample's clipboard after [startMonitoring] is
    the plain text of the baseline read. *)
Lemma startMonitoring_establishes_baseline_witness :
  ClipboardData.enabled (deref ptr_clipboardData sample) = true ∧
  ClipboardData.data
    (deref ptr_clipboardData
       (startMonitoring "text/plain" ["text/plain"%string] sampleRead sample))
  = cloneData
      (<["text/plain"%string := bytes "a"]> (<["TIMESTAMP"%string := bytes "100"]> ∅))
      (ClipboardData.formats
         (deref ptr_clipboardData
            (startMonitoring "text/plain" ["text/plain"%string] sampleRead sample))).
Proof.
  split; [reflexivity|].
  destruct (startMonitoring_establishes_baseline "text/plain" ["text/plain"%string]
              sampleRead sample ptr_clipboardData)
    as (_ & _ & _ & _ & _ & _ & _ & Hdata).
  apply Hdata; [reflexivity | reflexivity | vm_compute; reflexivity].
Defined.

(** ** The debounce timers across a check *)

(** A poll starts the debounce timer of its tracker exactly when it reports
    a change, and otherwise leaves the timer as it is. *)
Lemma updateClipboardData_timerEmitChange p rd s :
  QTimer.isActive
    (ClipboardData.timerEmitChange (deref p (updateClipboardData p rd s).2))
  = (updateClipboardData p rd s).1
    || QTimer.isActive (ClipboardData.timerEmitChange (deref p s)).
Proof.
  unfold updateClipboardData.
  destruct (negb _); [done|].
  destruct (rd _) as [d|]; cbn zeta.
  - set (cd2 := if _ || _ then _ else _).
    assert (Htimer : ClipboardData.timerEmitChange cd2
                     = ClipboardData.timerEmitChange (deref p s)).
    { unfold cd2. by destruct (_ || _). }
    destruct (if negb _ then _ else _); cbn [fst snd orb];
      rewrite deref_assign_same; [done|]. by rewrite Htimer.
  - cbn [fst snd orb]. destruct (_ <? _); by destruct p.
Qed.

(** X10.  [check] cancels the publications that were pending and schedules
    only those its own polls ask for: afterwards the clipboard's debounce
    timer runs iff the clipboard poll reported a change, and the selection's
    runs iff the clipboard poll reported none and the selection poll reported
    one.  Whenever the check reports a change, a re-check is pending. *)
Theorem check_restarts_debounce_timers (rd : PlatformRead) (s : X11PlatformClipboard) :
  QTimer.isActive (ClipboardData.timerEmitChange (m_clipboardData (check rd s)))
  = (updateClipboardData ptr_clipboardData rd (stopTimers s)).1 ∧
  QTimer.isActive (ClipboardData.timerEmitChange (m_selectionData (check rd s)))
  = negb (updateClipboardData ptr_clipboardData rd (stopTimers s)).1
    && (updateClipboardData ptr_selectionData rd
          (updateClipboardData ptr_clipboardData rd (stopTimers s)).2).1 ∧
  ((check_changed rd (stopTimers s)).1 = true →
   QTimer.isActive (m_timerCheckAgain (check rd s)) = true).
Proof.
  pose proof (check_trackers rd s ptr_clipboardData) as Hclip.
  pose proof (check_trackers rd s ptr_selectionData) as Hsel.
  cbn [deref] in Hclip, Hsel. rewrite Hclip, Hsel. clear Hclip Hsel.
  split; [|split].
  - unfold check_changed.
    pose proof (updateClipboardData_timerEmitChange ptr_clipboardData rd (stopTimers s))
      as Htimer.
    pose proof (updateClipboardData_frame ptr_selectionData rd
                  (updateClipboardData ptr_clipboardData rd (stopTimers s)).2)
      as [Hother _].
    specialize (Hother ptr_clipboardData ltac:(done)).
    replace (QTimer.isActive
               (ClipboardData.timerEmitChange (deref ptr_clipboardData (stopTimers s))))
      with false in Htimer by done.
    rewrite orb_false_r in Htimer.
    destruct (updateClipboardData ptr_clipboardData rd (stopTimers s)) as [[] s1];
      cbn [fst snd deref] in *; [done|].
    by rewrite Hother.
  - unfold check_changed.
    pose proof (updateClipboardData_frame ptr_clipboardData rd (stopTimers s))
      as [Hother _].
    specialize (Hother ptr_selectionData ltac:(done)).
    pose proof (updateClipboardData_timerEmitChange ptr_selectionData rd
                  (updateClipboardData ptr_clipboardData rd (stopTimers s)).2)
      as Htimer.
    destruct (updateClipboardData ptr_clipboardData rd (stopTimers s)) as [[] s1];
      cbn [fst snd deref negb andb] in *.
    + by rewrite Hother.
    + rewrite Htimer, Hother. apply orb_false_r.
  - intros Hchanged. unfold check.
    destruct (check_changed rd (stopTimers s)) as [c s1]. cbn [fst] in Hchanged.
    subst c. destruct (QTimer.isActive (m_timerCheckAgain s1)) eqn:Hactive; [done|].
    unfold checkAgainLater. cbn [m_timerCheckAgain set_m_timerCheckAgain].
    by destruct (_ <? _).
Qed.

(** ** The end of the backoff *)

(** The shared timer after a timeout whose check reads both buffers without
    failure and finds nothing changed. *)
Lemma timeoutCheckAgain_quiet rd s :
  (∀ m, is_Some (rd m)) →
  (check_changed rd (stopTimers s)).1 = false →
  m_timerCheckAgain (step (TimeoutCheckAgain rd) s)
  = if QTimer.interval (m_timerCheckAgain s) * 2 + minCheckAgainIntervalMs
       <? maxCheckAgainIntervalMs
    then QTimer.mk (QTimer.interval (m_timerCheckAgain s) * 2 + minCheckAgainIntervalMs)
           true
    else QTimer.mk 0 false.
Proof.
  intros Hread Hquiet. cbn [step]. unfold check.
  rewrite stopTimers_after_timeout.
  pose proof (check_changed_timer rd (stopTimers s) (λ p _, Hread _)) as Htimer.
  destruct (check_changed rd (stopTimers s)) as [c s1]. cbn [fst snd] in *. subst c.
  rewrite Htimer.
  unfold checkAgainLater, maxCheckAgainIntervalMs, minCheckAgainIntervalMs.
  cbn [m_timerCheckAgain set_m_timerCheckAgain]. rewrite Htimer.
  cbn. by destruct (_ <? 500).
Qed.

Lemma checks_O rd s : checks 0 rd s = s.
Proof. reflexivity. Qed.

Lemma checks_S n rd s :
  checks (S n) rd s = step (TimeoutCheckAgain rd) (checks n rd s).
Proof. reflexivity. Qed.

(** X11.  The backoff ends the polling: from a state within the bounds, when
    both buffers can be read and nothing changes, the shared timer is
    stopped, with interval 0, after at most four timeouts in a row. *)
Theorem polling_stops_within_four_quiet_checks (rd : PlatformRead)
    (s : X11PlatformClipboard) :
  bounded s →
  (∀ m, is_Some (rd m)) →
  (∀ n, (n < 4)%nat → (check_changed rd (stopTimers (checks n rd s))).1 = false) →
  ∃ n, (1 ≤ n ≤ 4)%nat ∧ m_timerCheckAgain (checks n rd s) = QTimer.mk 0 false.
Proof.
  intros (_ & _ & Hstart & _) Hread Hquiet.
  pose proof (timeoutCheckAgain_quiet rd (checks 0 rd s) Hread (Hquiet 0%nat ltac:(lia)))
    as H1.
  pose proof (timeoutCheckAgain_quiet rd (checks 1 rd s) Hread (Hquiet 1%nat ltac:(lia)))
    as H2.
  pose proof (timeoutCheckAgain_quiet rd (checks 2 rd s) Hread (Hquiet 2%nat ltac:(lia)))
    as H3.
  pose proof (timeoutCheckAgain_quiet rd (checks 3 rd s) Hread (Hquiet 3%nat ltac:(lia)))
    as H4.
  rewrite <- checks_S in H1, H2, H3, H4. rewrite checks_O in H1.
  unfold maxCheckAgainIntervalMs, minCheckAgainIntervalMs in *.
  destruct (_ <? 500) eqn:E1 in H1; [|exists 1%nat; split; [lia | exact H1]].
  apply Z.ltb_lt in E1. rewrite H1 in H2. cbn [QTimer.interval] in H2.
  destruct (_ <? 500) eqn:E2 in H2; [|exists 2%nat; split; [lia | exact H2]].
  apply Z.ltb_lt in E2. rewrite H2 in H3. cbn [QTimer.interval] in H3.
  destruct (_ <? 500) eqn:E3 in H3; [|exists 3%nat; split; [lia | exact H3]].
  apply Z.ltb_lt in E3. rewrite H3 in H4. cbn [QTimer.interval] in H4.
  destruct (_ <? 500) eqn:E4 in H4; [|exists 4%nat; split; [lia | exact H4]].
  apply Z.ltb_lt in E4. lia.
Qed.

(** From the sample state, with both buffers readable and empty, the fourth
    timeout leaves the shared timer stopped. *)
Lemma polling_stops_within_four_quiet_checks_witness :
  bounded sample ∧
  (∀ m, is_Some (emptyRead m)) ∧
  ∃ n, (1 ≤ n ≤ 4)%nat ∧ m_timerCheckAgain (checks n emptyRead sample) = QTimer.mk 0 false.
Proof.
  assert (Hstart : bounded sample).
  { unfold bounded, maxRetryCount, maxCheckAgainIntervalMs. cbn. lia. }
  assert (Hread : ∀ m, is_Some (emptyRead m)) by (intros m; by eexists).
  split; [exact Hstart|]. split; [exact Hread|].
  apply (polling_stops_within_four_quiet_checks emptyRead sample Hstart Hread).
  intros [|[|[|[|n]]]] Hn; try lia; vm_compute; reflexivity.
Defined.

(** ** Owner changes, mode by mode *)

(** X12.  [onChanged] takes every mode other than [QClipboard::Clipboard]
    for the selection: the tracker addressed is the only one it touches.  If
    that tracker is enabled it is marked dirty, the title becomes its pending
    owner, and the shared timer is restarted at 0 ms, which resets the
    backoff; the one exception is the mode [QClipboard::Selection] itself
    while the shared timer is running, which stops the selection's debounce
    timer and keeps the shared timer as it is. *)
Theorem owner_change_by_mode (mode : Z) (title : QByteArray) (s : X11PlatformClipboard) :
  (∀ q, q ≠ trackerOfSignal mode → deref q (onChanged mode title s) = deref q s) ∧
  (ClipboardData.enabled (deref (trackerOfSignal mode) s) = true →
   ClipboardData.changed (deref (trackerOfSignal mode) (onChanged mode title s)) = true ∧
   ClipboardData.newOwner (deref (trackerOfSignal mode) (onChanged mode title s)) = title ∧
   m_timerCheckAgain (onChanged mode title s)
   = (if (mode =? QClipboard_Selection) && QTimer.isActive (m_timerCheckAgain s)
      then m_timerCheckAgain s
      else QTimer.mk 0 true) ∧
   ((mode =? QClipboard_Selection) && QTimer.isActive (m_timerCheckAgain s) = true →
    QTimer.isActive (ClipboardData.timerEmitChange (m_selectionData (onChanged mode title s)))
    = false)).
Proof.
  unfold trackerOfSignal, onChanged, QClipboard_Clipboard, QClipboard_Selection.
  destruct (mode =? 0) eqn:Hclip.
  - apply Z.eqb_eq in Hclip. subst mode. cbn [Z.eqb andb deref assign].
    split.
    + intros [] Hq; [done|].
      destruct (negb _); [done|]. by destruct (bool_decide _).
    + intros Hon. rewrite Hon. cbn [negb].
      case_bool_decide as Hne; cbn; repeat split; try done;
        by apply dec_stable in Hne.
  - split.
    + intros [] Hq; [|done].
      destruct (negb _); [done|].
      destruct (bool_decide _), (_ && _); done.
    + intros Hon. cbn [deref] in Hon. cbn [deref assign]. rewrite Hon. cbn [negb].
      destruct ((mode =? 1) && QTimer.isActive (m_timerCheckAgain s)) eqn:Hpostponed;
        case_bool_decide as Hne; cbn; rewrite ?Hpostponed; cbn;
        repeat split; try done; by apply dec_stable in Hne.
Qed.

(** A signal for [QClipboard::FindBuffer] reaches the sample state while a
    re-check is pending: the selection tracker is marked dirty and the check
    is rescheduled at once. *)
Lemma owner_change_by_mode_witness :
  ClipboardData.enabled
    (deref (trackerOfSignal QClipboard_FindBuffer) sampleSelectionPending) = true ∧
  QTimer.isActive (m_timerCheckAgain sampleSelectionPending) = true ∧
  m_timerCheckAgain (onChanged QClipboard_FindBuffer (bytes "editor") sampleSelectionPending)
  = QTimer.mk 0 true.
Proof.
  split; [vm_compute; reflexivity|]. split; [vm_compute; reflexivity|].
  destruct (owner_change_by_mode QClipboard_FindBuffer (bytes "editor")
              sampleSelectionPending) as (_ & Henabled).
  destruct Henabled as (_ & _ & Htimer & _); [vm_compute; reflexivity|].
  exact Htimer.
Defined.

(** ** From the owner change to the published owner *)

Lemma check_newOwner rd s q :
  ClipboardData.newOwner (deref q (check rd s)) = ClipboardData.newOwner (deref q s).
Proof.
  rewrite check_trackers. unfold check_changed.
  assert (Hpoll : ∀ p s', ClipboardData.newOwner (deref q (updateClipboardData p rd s').2)
                          = ClipboardData.newOwner (deref q s')).
  { intros p s'. destruct (decide (q = p)) as [->|Hq].
    - apply updateClipboardData_frame.
    - by rewrite (proj1 (updateClipboardData_frame p rd s') q Hq). }
  pose proof (Hpoll ptr_clipboardData (stopTimers s)) as H1.
  destruct (updateClipboardData ptr_clipboardData rd (stopTimers s)) as [[] s1];
    cbn [snd] in *.
  - rewrite H1. by destruct q.
  - rewrite Hpoll, H1. by destruct q.
Qed.

Lemma step_newOwner p e s :
  writesNewOwner p e = false →
  ClipboardData.newOwner (deref p (step e s)) = ClipboardData.newOwner (deref p s).
Proof.
  intros Hkeeps.
  destruct e as [mt fs rd|m b|mode title|rd|p' x11 st]; cbn [writesNewOwner] in Hkeeps;
    try discriminate Hkeeps; cbn [step].
  - by destruct m, p.
  - apply bool_decide_eq_false in Hkeeps. unfold trackerOfSignal in Hkeeps.
    unfold onChanged. destruct (negb _); [done|].
    destruct (mode =? QClipboard_Clipboard), (bool_decide _), (_ && _), p; done.
  - rewrite check_newOwner. by destruct p.
  - destruct p'.
    + by destruct p.
    + unfold selectionEmitChange. destruct (isSelectionIncomplete _ _).
      * destruct (negb _); by destruct p.
      * by destruct p.
Qed.

Lemma run_newOwner p es s :
  Forall (λ e, writesNewOwner p e = false) es →
  ClipboardData.newOwner (deref p (run es s)) = ClipboardData.newOwner (deref p s).
Proof.
  induction es as [|e es IH] using rev_ind; intros Hes; [done|].
  apply Forall_app in Hes as [Hes He]. apply (proj1 (Forall_singleton _ _)) in He.
  rewrite run_snoc. rewrite step_newOwner by exact He. by apply IH.
Qed.

Lemma timeoutEmitChange_owner p x11 st s :
  (p = ptr_selectionData → isSelectionIncomplete x11 st = false) →
  ClipboardData.owner (deref p (step (TimeoutEmitChange p x11 st) s))
  = ClipboardData.newOwner (deref p s) ∧
  ClipboardData.data (deref p (step (TimeoutEmitChange p x11 st) s))
  = ClipboardData.newData (deref p s).
Proof.
  intros Hgate. destruct p; cbn [step]; [done|].
  unfold selectionEmitChange. by rewrite (Hgate eq_refl).
Qed.

(** X13.  The window title that [onChanged] records for an enabled tracker
    is the owner that the tracker's next publication publishes, and that
    [data] then returns under the window-title format when the published map
    has no owner format, whatever events come in between other than an owner
    change for the same tracker or a call of [startMonitoring]. *)
Theorem recorded_title_is_published (p : ClipboardDataPtr) (title : QByteArray)
    (es : list Event) (isPlatformX11 : bool) (xbutton_state : Z)
    (mimeOwner mimeWindowTitle : string) (m : ClipboardMode) (formats : QStringList)
    (s : X11PlatformClipboard) :
  ClipboardData.enabled (deref p s) = true →
  Forall (λ e, writesNewOwner p e = false) es →
  (p = ptr_selectionData → isSelectionIncomplete isPlatformX11 xbutton_state = false) →
  ClipboardData.owner
    (deref p (step (TimeoutEmitChange p isPlatformX11 xbutton_state)
                (run es (step (OwnerChanged (signalMode p) title) s)))) = title ∧
  (dataFor m = p →
   ClipboardData.data
     (deref p (step (TimeoutEmitChange p isPlatformX11 xbutton_state)
                 (run es (step (OwnerChanged (signalMode p) title) s)))) !! mimeOwner
   = None →
   (data mimeOwner mimeWindowTitle m formats
      (step (TimeoutEmitChange p isPlatformX11 xbutton_state)
         (run es (step (OwnerChanged (signalMode p) title) s)))).1 !! mimeWindowTitle
   = Some title).
Proof.
  intros Hon Hes Hgate.
  assert (Howner : ClipboardData.owner
            (deref p (step (TimeoutEmitChange p isPlatformX11 xbutton_state)
                        (run es (step (OwnerChanged (signalMode p) title) s)))) = title).
  { rewrite (proj1 (timeoutEmitChange_owner p _ _ _ Hgate)).
    rewrite run_newOwner by done.
    change (step (OwnerChanged (signalMode p) title) s)
      with (onChanged (signalMode p) title s).
    by destruct (onChanged_enabled p title s Hon) as (_ & _ & _ & HnewOwner & _). }
  split; [exact Howner|].
  intros <- Hnone. revert Howner Hnone.
  generalize (step (TimeoutEmitChange (dataFor m) isPlatformX11 xbutton_state)
                (run es (step (OwnerChanged (signalMode (dataFor m)) title) s))).
  intros s' Howner Hnone. unfold data. cbn [fst].
  rewrite bool_decide_eq_false_2 by (rewrite Hnone; by intros [? ?]).
  cbn [negb]. by rewrite lookup_insert_eq, Howner.
Qed.

(** The owner of the clipboard changes to "editor" after the baseline of
    the sample; a check and the debounce timeout later, "editor" is the
    published owner. *)
Lemma recorded_title_is_published_witness :
  ClipboardData.enabled (deref ptr_clipboardData sampleBaseline) = true ∧
  Forall (λ e, writesNewOwner ptr_clipboardData e = false) [TimeoutCheckAgain sampleRead] ∧
  ClipboardData.owner (deref ptr_clipboardData sampleBaseline) = [] ∧
  ClipboardData.owner
    (deref ptr_clipboardData
       (step (TimeoutEmitChange ptr_clipboardData true 0)
          (run [TimeoutCheckAgain sampleRead]
             (step (OwnerChanged (signalMode ptr_clipboardData) (bytes "editor"))
                sampleBaseline)))) = bytes "editor".
Proof.
  assert (Hon : ClipboardData.enabled (deref ptr_clipboardData sampleBaseline) = true)
    by (vm_compute; reflexivity).
  assert (Hes : Forall (λ e, writesNewOwner ptr_clipboardData e = false)
                  [TimeoutCheckAgain sampleRead])
    by (apply Forall_cons; split; [reflexivity | apply Forall_nil_2]).
  split; [exact Hon|]. split; [exact Hes|]. split; [vm_compute; reflexivity|].
  apply (recorded_title_is_published ptr_clipboardData (bytes "editor")
           [TimeoutCheckAgain sampleRead] true 0 "application/x-copyq-owner"
           "application/x-copyq-owner-window-title" Clipboard [] sampleBaseline Hon Hes).
  intros Hp. discriminate Hp.
Defined.

(** ** Failures are counted in a row *)

(** X14.  A successful read of an enabled tracker resets its retry counter,
    whatever it was: the next failed read counts as the first and schedules
    the retry at 500 ms. *)
Theorem successful_read_resets_retries (p : ClipboardDataPtr) (rd rd' : PlatformRead)
    (d : QMimeData) (s : X11PlatformClipboard) :
  ClipboardData.enabled (deref p s) = true →
  rd (ClipboardData.mode (deref p s)) = Some d →
  rd' (ClipboardData.mode (deref p s)) = None →
  ClipboardData.retry (deref p (updateClipboardData p rd s).2) = 0 ∧
  ClipboardData.retry
    (deref p (updateClipboardData p rd' (updateClipboardData p rd s).2).2) = 1 ∧
  m_timerCheckAgain (updateClipboardData p rd' (updateClipboardData p rd s).2).2
  = QTimer.mk maxCheckAgainIntervalMs true.
Proof.
  intros Hon Hread Hfail.
  destruct (updateClipboardData_stores p rd d s Hon Hread) as (Hretry & _).
  pose proof (updateClipboardData_frame p rd s) as (_ & Hmode & _ & Henabled & _).
  revert Hretry Hmode Henabled.
  generalize (updateClipboardData p rd s).2. intros s1 Hretry Hmode Henabled.
  split; [exact Hretry|].
  rewrite updateClipboardData_failed; [| by rewrite Henabled | by rewrite Hmode].
  rewrite Hretry. cbn [snd]. unfold maxRetryCount, maxCheckAgainIntervalMs.
  cbn [Z.ltb Z.compare]. by destruct p.
Qed.

(** After five failed reads of the sample's clipboard the counter is at 3;
    one successful read later a failure schedules the retry at 500 ms
    again. *)
Lemma successful_read_resets_retries_witness :
  ClipboardData.retry
    (deref ptr_clipboardData (polls 5 ptr_clipboardData failingRead sample)) = 3 ∧
  ClipboardData.enabled
    (deref ptr_clipboardData (polls 5 ptr_clipboardData failingRead sample)) = true ∧
  m_timerCheckAgain
    (updateClipboardData ptr_clipboardData failingRead
       (updateClipboardData ptr_clipboardData sampleRead
          (polls 5 ptr_clipboardData failingRead sample)).2).2
  = QTimer.mk 500 true.
Proof.
  split; [vm_compute; reflexivity|]. split; [vm_compute; reflexivity|].
  destruct (successful_read_resets_retries ptr_clipboardData sampleRead failingRead
              (<["text/plain"%string := bytes "a"]> (<["TIMESTAMP"%string := bytes "100"]> ∅))
              (polls 5 ptr_clipboardData failingRead sample))
    as (_ & _ & Htimer);
    [vm_compute; reflexivity | vm_compute; reflexivity | reflexivity | exact Htimer].
Defined.

(** ** Counting the signals *)

Lemma step_emits e s :
  ∃ signals, emitted (step e s) = emitted s ++ signals ∧ length signals = emissionsOf e.
Proof.
  destruct e as [mt fs rd|m b|mode title|rd|[] x11 st]; cbn [emissionsOf publishes].
  - eexists. split; [apply startMonitoring_emitted | done].
  - exists []. cbn [step]. by rewrite setMonitoringEnabled_emitted, app_nil_r.
  - exists []. cbn [step]. by rewrite onChanged_emitted, app_nil_r.
  - exists []. by rewrite timeoutCheckAgain_emitted, app_nil_r.
  - eexists. split; [apply (timeoutEmitChange_emitted ptr_clipboardData); done | done].
  - destruct (isSelectionIncomplete x11 st) eqn:Hgate; cbn [negb].
    + exists []. rewrite app_nil_r. cbn [step]. unfold selectionEmitChange.
      rewrite Hgate. by destruct (negb _).
    + eexists. split; [by apply (timeoutEmitChange_emitted ptr_selectionData) | done].
Qed.

(** X15.  Along any sequence of events the emitted signals are only
    extended, never retracted, and by exactly two signals for each call of
    [startMonitoring] and one for each debounce timeout that publishes. *)
Theorem signals_count_publications (es : list Event) (s : X11PlatformClipboard) :
  ∃ signals,
    emitted (run es s) = emitted s ++ signals ∧
    length signals = sum_list_with emissionsOf es.
Proof.
  induction es as [|e es IH] using rev_ind.
  - exists []. by rewrite app_nil_r.
  - destruct IH as (signals & Hrun & Hlength).
    destruct (step_emits e (run es s)) as (more & Hstep & Hmore).
    exists (signals ++ more). rewrite run_snoc, Hstep, Hrun, app_assoc.
    split; [done|].
    rewrite length_app, sum_list_with_app, Hlength, Hmore. cbn. lia.
Qed.

(** ** One tracker at a time *)

(** X16.  An event addressed to one tracker (a call of
    [setMonitoringEnabled], an owner change, a debounce timeout) leaves the
    other tracker exactly as it is. *)
Theorem addressed_event_spares_other_tracker (e : Event) (p q : ClipboardDataPtr)
    (s : X11PlatformClipboard) :
  addressee e = Some p → q ≠ p → deref q (step e s) = deref q s.
Proof.
  intros Haddr Hq.
  destruct e as [mt fs rd|m b|mode title|rd|p' x11 st]; cbn [addressee] in Haddr;
    simplify_eq; cbn [step].
  - by destruct m, q.
  - unfold trackerOfSignal in Hq. unfold onChanged, QClipboard_Clipboard in *.
    destruct (mode =? 0) eqn:Hclip.
    + apply Z.eqb_eq in Hclip. subst mode. cbn [Z.eqb andb].
      destruct (negb _); [done|]. destruct (bool_decide _), q; done.
    + destruct (negb _); [done|]. destruct (bool_decide _), (_ && _), q; done.
  - destruct p.
    + by destruct q.
    + unfold selectionEmitChange. destruct (isSelectionIncomplete _ _).
      * destruct (negb _); by destruct q.
      * by destruct q.
Qed.

(** The clipboard's debounce timeout in the sample state leaves the
    selection tracker alone. *)
Lemma addressed_event_spares_other_tracker_witness :
  addressee (TimeoutEmitChange ptr_clipboardData true 0) = Some ptr_clipboardData ∧
  ptr_selectionData ≠ ptr_clipboardData ∧
  deref ptr_selectionData (step (TimeoutEmitChange ptr_clipboardData true 0) sample)
  = deref ptr_selectionData sample.
Proof.
  assert (Hq : ptr_selectionData ≠ ptr_clipboardData) by discriminate.
  split; [reflexivity|]. split; [exact Hq|].
  exact (addressed_event_spares_other_tracker (TimeoutEmitChange ptr_clipboardData true 0)
           ptr_clipboardData ptr_selectionData sample eq_refl Hq).
Defined.

(** ** Disabling and enabling again *)

(** A check leaves a disabled tracker as it is, but for its debounce timer,
    which it stops. *)
Lemma check_disabled rd s p :
  ClipboardData.enabled (deref p s) = false →
  deref p (check rd s)
  = ClipboardData.set_timerEmitChange
      (QTimer.stop (ClipboardData.timerEmitChange (deref p s))) (deref p s).
Proof.
  intros Hoff. rewrite check_trackers. unfold check_changed.
  assert (Hpoll : ∀ s', ClipboardData.enabled (deref p s') = false →
                        updateClipboardData p rd s' = (false, s')).
  { intros s' Hoff'. unfold updateClipboardData. by rewrite Hoff'. }
  destruct p.
  - rewrite Hpoll by exact Hoff. cbn [fst snd].
    by rewrite (proj1 (updateClipboardData_frame ptr_selectionData rd (stopTimers s))
                  ptr_clipboardData).
  - pose proof (updateClipboardData_frame ptr_clipboardData rd (stopTimers s))
      as [Hother _].
    specialize (Hother ptr_selectionData ltac:(done)).
    destruct (updateClipboardData ptr_clipboardData rd (stopTimers s)) as [[] s1];
      cbn [fst snd] in *; [by rewrite Hother|].
    rewrite Hpoll.
    + cbn [snd]. by rewrite Hother.
    + rewrite Hother. exact Hoff.
Qed.

Lemma checks_disabled rd p n : ∀ s,
  ClipboardData.enabled (deref p s) = false →
  deref p (checks n rd s)
  = match n with
    | O => deref p s
    | S _ => ClipboardData.set_timerEmitChange
               (QTimer.stop (ClipboardData.timerEmitChange (deref p s))) (deref p s)
    end.
Proof.
  induction n as [|n IH]; intros s Hoff; [done|].
  rewrite checks_S. cbn [step]. specialize (IH s Hoff).
  revert IH. generalize (checks n rd s). intros s' IH.
  rewrite check_disabled.
  - replace (deref p (set_m_timerCheckAgain (QTimer.stop (m_timerCheckAgain s')) s'))
      with (deref p s') by (by destruct p).
    rewrite IH. by destruct n.
  - replace (deref p (set_m_timerCheckAgain (QTimer.stop (m_timerCheckAgain s')) s'))
      with (deref p s') by (by destruct p).
    rewrite IH. by destruct n.
Qed.

(** A check starts the debounce timer of an enabled, dirty tracker whose
    read succeeds, provided the tracker is polled. *)
Lemma check_arms_dirty p rd d s :
  ClipboardData.enabled (deref p s) = true →
  ClipboardData.changed (deref p s) = true →
  rd (ClipboardData.mode (deref p s)) = Some d →
  (p = ptr_selectionData →
   (updateClipboardData ptr_clipboardData rd (stopTimers s)).1 = false) →
  QTimer.isActive (ClipboardData.timerEmitChange (deref p (check rd s))) = true.
Proof.
  intros Hon Hdirty Hread Hclip.
  assert (Hon0 : ClipboardData.enabled (deref p (stopTimers s)) = true)
    by (by destruct p).
  assert (Hdirty0 : ClipboardData.changed (deref p (stopTimers s)) = true)
    by (by destruct p).
  assert (Hread0 : rd (ClipboardData.mode (deref p (stopTimers s))) = Some d)
    by (by destruct p).
  destruct p.
  - destruct (updateClipboardData_dirty ptr_clipboardData rd d _ Hon0 Hdirty0 Hread0)
      as [Hres Htimer].
    destruct (check_clipboard_changed rd s Hres) as (Hc & _).
    cbn [deref] in *. by rewrite Hc.
  - specialize (Hclip eq_refl).
    destruct (check_clipboard_unchanged rd s Hclip) as (Hs & _).
    cbn [deref]. rewrite Hs.
    pose proof (updateClipboardData_frame ptr_clipboardData rd (stopTimers s))
      as [Hother _].
    specialize (Hother ptr_selectionData ltac:(done)).
    apply (updateClipboardData_dirty ptr_selectionData rd d); by rewrite Hother.
Qed.

(** X17.  A change detected before a tracker is disabled is not lost.  While
    the tracker is disabled, checks leave its dirty flag, its pending and its
    published data alone and only stop its debounce timer; the first check
    after it is enabled again whose read of the buffer succeeds (for the
    selection: when the clipboard poll reports no change) starts the debounce
    timer again. *)
Theorem pending_change_survives_disabling (m : ClipboardMode) (n : nat)
    (rd rd' : PlatformRead) (d : QMimeData) (s : X11PlatformClipboard) :
  ClipboardData.changed (deref (dataFor m) s) = true →
  rd' (ClipboardData.mode (deref (dataFor m) s)) = Some d →
  (dataFor m = ptr_selectionData →
   (updateClipboardData ptr_clipboardData rd'
      (stopTimers (setMonitoringEnabled m true
                     (checks n rd (setMonitoringEnabled m false s))))).1 = false) →
  deref (dataFor m) (checks n rd (setMonitoringEnabled m false s))
  = match n with
    | O => ClipboardData.set_enabled false (deref (dataFor m) s)
    | S _ => ClipboardData.set_timerEmitChange
               (QTimer.stop (ClipboardData.timerEmitChange (deref (dataFor m) s)))
               (ClipboardData.set_enabled false (deref (dataFor m) s))
    end ∧
  QTimer.isActive
    (ClipboardData.timerEmitChange
       (deref (dataFor m)
          (check rd' (setMonitoringEnabled m true
                        (checks n rd (setMonitoringEnabled m false s)))))) = true.
Proof.
  intros Hdirty Hread Hclip.
  assert (Hfrozen : deref (dataFor m) (checks n rd (setMonitoringEnabled m false s))
            = match n with
              | O => ClipboardData.set_enabled false (deref (dataFor m) s)
              | S _ => ClipboardData.set_timerEmitChange
                         (QTimer.stop (ClipboardData.timerEmitChange (deref (dataFor m) s)))
                         (ClipboardData.set_enabled false (deref (dataFor m) s))
              end).
  { rewrite checks_disabled.
    - unfold setMonitoringEnabled. by rewrite deref_assign_same.
    - unfold setMonitoringEnabled. by rewrite deref_assign_same. }
  split; [exact Hfrozen|].
  revert Hfrozen Hclip.
  generalize (checks n rd (setMonitoringEnabled m false s)). intros s2 Hfrozen Hclip.
  assert (Hs3 : deref (dataFor m) (setMonitoringEnabled m true s2)
                = ClipboardData.set_enabled true (deref (dataFor m) s2)).
  { unfold setMonitoringEnabled. by rewrite deref_assign_same. }
  apply (check_arms_dirty (dataFor m) rd' d); rewrite ?Hs3, ?Hfrozen.
  - done.
  - by destruct n.
  - by destruct n.
  - exact Hclip.
Qed.

(** The sample's clipboard tracker is switched off with "a" pending, two
    timeouts of the shared timer pass, and it is switched on again: the next
    check schedules the publication. *)
Lemma pending_change_survives_disabling_witness :
  ClipboardData.changed (deref (dataFor Clipboard) (check sampleRead sample)) = true ∧
  QTimer.isActive
    (ClipboardData.timerEmitChange
       (deref (dataFor Clipboard)
          (checks 2 sampleRead (setMonitoringEnabled Clipboard false (check sampleRead sample)))))
  = false ∧
  QTimer.isActive
    (ClipboardData.timerEmitChange
       (deref (dataFor Clipboard)
          (check sampleRead
             (setMonitoringEnabled Clipboard true
                (checks 2 sampleRead
                   (setMonitoringEnabled Clipboard false (check sampleRead sample)))))))
  = true.
Proof.
  assert (Hdirty : ClipboardData.changed
            (deref (dataFor Clipboard) (check sampleRead sample)) = true)
    by (vm_compute; reflexivity).
  split; [exact Hdirty|]. split; [vm_compute; reflexivity|].
  destruct (pending_change_survives_disabling Clipboard 2 sampleRead sampleRead
              (<["text/plain"%string := bytes "a"]> (<["TIMESTAMP"%string := bytes "100"]> ∅))
              (check sampleRead sample) Hdirty) as (_ & Harmed).
  - vm_compute; reflexivity.
  - intros Hp. discriminate Hp.
  - exact Harmed.
Defined.

(** ** The published snapshot *)

(** An event that does not publish leaves the published data and owner of
    both trackers as they are. *)
Lemma quiet_step_keeps_published e s :
  publishes e = false →
  ClipboardData.data (m_clipboardData (step e s)) = ClipboardData.data (m_clipboardData s) ∧
  ClipboardData.owner (m_clipboardData (step e s))
  = ClipboardData.owner (m_clipboardData s) ∧
  ClipboardData.data (m_selectionData (step e s)) = ClipboardData.data (m_selectionData s) ∧
  ClipboardData.owner (m_selectionData (step e s))
  = ClipboardData.owner (m_selectionData s).
Proof.
  intros Hquiet.
  destruct e as [mt fs rd|m b|mode title|rd|[] x11 st]; cbn [publishes] in Hquiet;
    try discriminate Hquiet; cbn [step].
  - by destruct m.
  - unfold onChanged. destruct (negb _); [done|].
    destruct (mode =? QClipboard_Clipboard), (bool_decide _), (_ && _); done.
  - destruct (check_published rd
                (set_m_timerCheckAgain (QTimer.stop (m_timerCheckAgain s)) s)
                ptr_clipboardData) as (Hdc & Hoc & _).
    destruct (check_published rd
                (set_m_timerCheckAgain (QTimer.stop (m_timerCheckAgain s)) s)
                ptr_selectionData) as (Hds & Hos & _).
    cbn [deref] in Hdc, Hoc, Hds, Hos. by rewrite Hdc, Hoc, Hds, Hos.
  - apply negb_false_iff in Hquiet. unfold selectionEmitChange. rewrite Hquiet.
    by destruct (negb _).
Qed.

(** C9.  [data(mode, formats)] returns the published map of the tracker of
    that mode, the clipboard tracker for [Clipboard] and the selection
    tracker for [Selection]: as it is when it carries the owner format, and
    otherwise with the published owner title stored under the window-title
    format.  The object is left as it was.  The result depends on nothing
    else: not on the formats argument, not on the other tracker, not on what
    is pending in the same tracker, and it is the same after every event that
    does not publish. *)
Theorem data_is_published_snapshot (mimeOwner mimeWindowTitle : string)
    (m : ClipboardMode) (formats : QStringList) (s : X11PlatformClipboard) :
  (data mimeOwner mimeWindowTitle m formats s).2 = s ∧
  (is_Some (ClipboardData.data
              (match m with
               | Clipboard => m_clipboardData s
               | Selection => m_selectionData s
               end) !! mimeOwner) →
   (data mimeOwner mimeWindowTitle m formats s).1
   = ClipboardData.data
       (match m with
        | Clipboard => m_clipboardData s
        | Selection => m_selectionData s
        end)) ∧
  (ClipboardData.data
     (match m with
      | Clipboard => m_clipboardData s
      | Selection => m_selectionData s
      end) !! mimeOwner = None →
   (data mimeOwner mimeWindowTitle m formats s).1
   = <[mimeWindowTitle :=
         ClipboardData.owner
           (match m with
            | Clipboard => m_clipboardData s
            | Selection => m_selectionData s
            end)]>
       (ClipboardData.data
          (match m with
           | Clipboard => m_clipboardData s
           | Selection => m_selectionData s
           end))) ∧
  (∀ formats', (data mimeOwner mimeWindowTitle m formats' s).1
               = (data mimeOwner mimeWindowTitle m formats s).1) ∧
  (∀ other,
     (data mimeOwner mimeWindowTitle m formats
        (match m with
         | Clipboard => set_m_selectionData other s
         | Selection => set_m_clipboardData other s
         end)).1
     = (data mimeOwner mimeWindowTitle m formats s).1) ∧
  (∀ newData newOwner,
     (data mimeOwner mimeWindowTitle m formats
        (match m with
         | Clipboard =>
             set_m_clipboardData
               (ClipboardData.set_newData newData
                  (ClipboardData.set_newOwner newOwner (m_clipboardData s))) s
         | Selection =>
             set_m_selectionData
               (ClipboardData.set_newData newData
                  (ClipboardData.set_newOwner newOwner (m_selectionData s))) s
         end)).1
     = (data mimeOwner mimeWindowTitle m formats s).1) ∧
  (∀ e, publishes e = false →
     (data mimeOwner mimeWindowTitle m formats (step e s)).1
     = (data mimeOwner mimeWindowTitle m formats s).1).
Proof.
  split; [done|]. split; [|split; [|split; [|split; [|split]]]].
  - intros Hsome. unfold data. cbn [fst].
    destruct m; cbn [dataFor deref] in *; by rewrite bool_decide_eq_true_2.
  - intros Hnone. unfold data. cbn [fst].
    destruct m; cbn [dataFor deref] in *;
      (rewrite bool_decide_eq_false_2; [done | rewrite Hnone; by intros [? ?]]).
  - done.
  - intros other. by destruct m.
  - intros newData newOwner. by destruct m.
  - intros e Hquiet.
    destruct (quiet_step_keeps_published e s Hquiet) as (Hdc & Hoc & Hds & Hos).
    revert Hdc Hoc Hds Hos. generalize (step e s). intros s' Hdc Hoc Hds Hos.
    unfold data. cbn [fst].
    destruct m; cbn [dataFor deref]; [by rewrite Hdc, Hoc | by rewrite Hds, Hos].
Qed.

(** After the baseline of the sample the clipboard has published "a" and the
    selection "b", neither with an owner format: [data] returns "a" for
    [Clipboard] and "b" for [Selection], each with the (empty) owner title
    under the window-title format. *)
Lemma data_is_published_snapshot_witness :
  ClipboardData.data (m_selectionData sampleBaseline) !! "application/x-copyq-owner"%string
  = None ∧
  (data "application/x-copyq-owner" "application/x-copyq-owner-window-title"
     Selection [] sampleBaseline).1
  = <["application/x-copyq-owner-window-title"%string := []]>
      ({[ "text/plain"%string := bytes "b" ]}) ∧
  (data "application/x-copyq-owner" "application/x-copyq-owner-window-title"
     Clipboard [] sampleBaseline).1
  = <["application/x-copyq-owner-window-title"%string := []]>
      ({[ "text/plain"%string := bytes "a" ]}).
Proof.
  assert (Hs : ClipboardData.data (m_selectionData sampleBaseline)
               !! "application/x-copyq-owner"%string = None)
    by (vm_compute; reflexivity).
  assert (Hc : ClipboardData.data (m_clipboardData sampleBaseline)
               !! "application/x-copyq-owner"%string = None)
    by (vm_compute; reflexivity).
  split; [exact Hs|]. split.
  - destruct (data_is_published_snapshot "application/x-copyq-owner"
                "application/x-copyq-owner-window-title" Selection [] sampleBaseline)
      as (_ & _ & Hinject & _).
    rewrite (Hinject Hs). vm_compute. reflexivity.
  - destruct (data_is_published_snapshot "application/x-copyq-owner"
                "application/x-copyq-owner-window-title" Clipboard [] sampleBaseline)
      as (_ & _ & Hinject & _).
    rewrite (Hinject Hc). vm_compute. reflexivity.
Defined.
